(** * Pricing calculator: client-side orchestration logic

    A shallow embedding of the logic of [src/App.tsx] (two-screen flow) and
    [src/App_fixed.tsx] (split-pane flow): the form state, the validity
    predicate, the request payload, the asynchronous submit handler and the
    view switches, followed by the properties established about them.

    React state is modelled by a record with one field per [useState] cell;
    a handler is a function on that record.  The asynchronous [handleSubmit]
    is split at its single suspension point ([await fetch]) into the part
    that runs when the handler is called and the part that runs when the
    request settles.  The outbound requests are kept in an explicit log. *)

From Stdlib Require Import ZArith QArith String List Bool Lia.
From stdpp Require Import base option list strings gmap.

#[local] Set Warnings "-register-all".
#[local] Open Scope Z_scope.
#[local] Open Scope string_scope.

(** ** JavaScript values

    The decoded body of a response and the state cell [estimate] hold
    untyped values; objects are finite maps from property names. *)

Inductive JSVal : Type :=
  | JUndefined
  | JNull
  | JBool (b : bool)
  | JNum (q : Q)
  | JStr (s : string)
  | JArr (elems : list JSVal)
  | JObj (fields : gmap string JSVal).

(** [ToBoolean] of the language: what [x ? a : b], [!x] and [x && y] test. *)
Definition truthy (v : JSVal) : bool :=
  match v with
  | JUndefined | JNull => false
  | JBool b => b
  | JNum q => negb (Z.eqb (Qnum q) 0)
  | JStr s => negb (String.eqb s "")
  | JArr _ | JObj _ => true
  end.

(** [a && b] evaluates to [a] when [a] is falsy and to [b] otherwise. *)
Definition js_and (a b : JSVal) : JSVal := if truthy a then b else a.

(** [Array.isArray(v)] *)
Definition isArray (v : JSVal) : bool :=
  match v with JArr _ => true | _ => false end.

(** [a[i]] on an array: [undefined] when [i] is out of range. *)
Definition index (elems : list JSVal) (i : nat) : JSVal :=
  default JUndefined (elems !! i).

(** [o.k] on an object: [undefined] for an absent property. *)
Definition prop (k : string) (v : JSVal) : JSVal :=
  match v with
  | JObj m => default JUndefined (m !! k)
  | _ => JUndefined
  end.

Definition num (n : Z) : JSVal := JNum (inject_Z n).

(** A nullable string cell ([string | null]) tested by [error && ...]. *)
Definition truthy_str (e : option string) : bool :=
  match e with
  | None => false
  | Some s => negb (String.eqb s "")
  end.

(** ** [interface FormData] (lines 4-17 of both files)

    The three numeric cells only ever hold what the initial state and
    [parseInt(...) || 0] put there, which are integers; an optional
    property ([k?: string]) is [None] when it is [undefined]. *)

Record FormData : Type := mkFormData {
  callsPerDay : Z;
  avgCallDuration : Z;
  estimatedUsers : Z;
  llmProvider : string;
  customLlmProvider : option string;
  sttProvider : string;
  customSttProvider : option string;
  ttsProvider : string;
  customTtsProvider : option string;
  knowledgeBaseSize : string;
  selfHosted : bool;
  gpuInstanceType : option string
}.

(** [keyof FormData] and the type of the value stored under each key. *)
Inductive Field : Type :=
  | F_callsPerDay | F_avgCallDuration | F_estimatedUsers
  | F_llmProvider | F_customLlmProvider
  | F_sttProvider | F_customSttProvider
  | F_ttsProvider | F_customTtsProvider
  | F_knowledgeBaseSize | F_selfHosted | F_gpuInstanceType.

Definition field_type (f : Field) : Type :=
  match f with
  | F_callsPerDay | F_avgCallDuration | F_estimatedUsers => Z
  | F_llmProvider | F_sttProvider | F_ttsProvider | F_knowledgeBaseSize => string
  | F_customLlmProvider | F_customSttProvider | F_customTtsProvider
  | F_gpuInstanceType => option string
  | F_selfHosted => bool
  end.

(** [{ ...prev, [field]: value }] *)
Definition with_field (f : Field) : field_type f -> FormData -> FormData :=
  match f with
  | F_callsPerDay => fun v p =>
      mkFormData v (avgCallDuration p) (estimatedUsers p) (llmProvider p)
        (customLlmProvider p) (sttProvider p) (customSttProvider p)
        (ttsProvider p) (customTtsProvider p) (knowledgeBaseSize p)
        (selfHosted p) (gpuInstanceType p)
  | F_avgCallDuration => fun v p =>
      mkFormData (callsPerDay p) v (estimatedUsers p) (llmProvider p)
        (customLlmProvider p) (sttProvider p) (customSttProvider p)
        (ttsProvider p) (customTtsProvider p) (knowledgeBaseSize p)
        (selfHosted p) (gpuInstanceType p)
  | F_estimatedUsers => fun v p =>
      mkFormData (callsPerDay p) (avgCallDuration p) v (llmProvider p)
        (customLlmProvider p) (sttProvider p) (customSttProvider p)
        (ttsProvider p) (customTtsProvider p) (knowledgeBaseSize p)
        (selfHosted p) (gpuInstanceType p)
  | F_llmProvider => fun v p =>
      mkFormData (callsPerDay p) (avgCallDuration p) (estimatedUsers p) v
        (customLlmProvider p) (sttProvider p) (customSttProvider p)
        (ttsProvider p) (customTtsProvider p) (knowledgeBaseSize p)
        (selfHosted p) (gpuInstanceType p)
  | F_customLlmProvider => fun v p =>
      mkFormData (callsPerDay p) (avgCallDuration p) (estimatedUsers p)
        (llmProvider p) v (sttProvider p) (customSttProvider p)
        (ttsProvider p) (customTtsProvider p) (knowledgeBaseSize p)
        (selfHosted p) (gpuInstanceType p)
  | F_sttProvider => fun v p =>
      mkFormData (callsPerDay p) (avgCallDuration p) (estimatedUsers p)
        (llmProvider p) (customLlmProvider p) v (customSttProvider p)
        (ttsProvider p) (customTtsProvider p) (knowledgeBaseSize p)
        (selfHosted p) (gpuInstanceType p)
  | F_customSttProvider => fun v p =>
      mkFormData (callsPerDay p) (avgCallDuration p) (estimatedUsers p)
        (llmProvider p) (customLlmProvider p) (sttProvider p) v
        (ttsProvider p) (customTtsProvider p) (knowledgeBaseSize p)
        (selfHosted p) (gpuInstanceType p)
  | F_ttsProvider => fun v p =>
      mkFormData (callsPerDay p) (avgCallDuration p) (estimatedUsers p)
        (llmProvider p) (customLlmProvider p) (sttProvider p)
        (customSttProvider p) v (customTtsProvider p) (knowledgeBaseSize p)
        (selfHosted p) (gpuInstanceType p)
  | F_customTtsProvider => fun v p =>
      mkFormData (callsPerDay p) (avgCallDuration p) (estimatedUsers p)
        (llmProvider p) (customLlmProvider p) (sttProvider p)
        (customSttProvider p) (ttsProvider p) v (knowledgeBaseSize p)
        (selfHosted p) (gpuInstanceType p)
  | F_knowledgeBaseSize => fun v p =>
      mkFormData (callsPerDay p) (avgCallDuration p) (estimatedUsers p)
        (llmProvider p) (customLlmProvider p) (sttProvider p)
        (customSttProvider p) (ttsProvider p) (customTtsProvider p) v
        (selfHosted p) (gpuInstanceType p)
  | F_selfHosted => fun v p =>
      mkFormData (callsPerDay p) (avgCallDuration p) (estimatedUsers p)
        (llmProvider p) (customLlmProvider p) (sttProvider p)
        (customSttProvider p) (ttsProvider p) (customTtsProvider p)
        (knowledgeBaseSize p) v (gpuInstanceType p)
  | F_gpuInstanceType => fun v p =>
      mkFormData (callsPerDay p) (avgCallDuration p) (estimatedUsers p)
        (llmProvider p) (customLlmProvider p) (sttProvider p)
        (customSttProvider p) (ttsProvider p) (customTtsProvider p)
        (knowledgeBaseSize p) (selfHosted p) v
  end.

(** [fd[field]] *)
Definition field_value (f : Field) : FormData -> field_type f :=
  match f with
  | F_callsPerDay => callsPerDay
  | F_avgCallDuration => avgCallDuration
  | F_estimatedUsers => estimatedUsers
  | F_llmProvider => llmProvider
  | F_customLlmProvider => customLlmProvider
  | F_sttProvider => sttProvider
  | F_customSttProvider => customSttProvider
  | F_ttsProvider => ttsProvider
  | F_customTtsProvider => customTtsProvider
  | F_knowledgeBaseSize => knowledgeBaseSize
  | F_selfHosted => selfHosted
  | F_gpuInstanceType => gpuInstanceType
  end.

(** The argument of [useState<FormData>] (lines 128-141 of both files). *)
Definition initialFormData : FormData :=
  {| callsPerDay := 50;
     avgCallDuration := 5;
     estimatedUsers := 10;
     llmProvider := "";
     customLlmProvider := Some "";
     sttProvider := "";
     customSttProvider := Some "";
     ttsProvider := "";
     customTtsProvider := Some "";
     knowledgeBaseSize := "";
     selfHosted := false;
     gpuInstanceType := Some "" |}.

(** ** [interface CostEstimate] (lines 19-125 of both files)

    The declared shape as a structural check on an untyped value: the
    property is present and has the declared type.  An interface admits
    further properties. *)

Definition is_number (v : JSVal) : bool :=
  match v with JNum _ => true | _ => false end.

Definition is_string (v : JSVal) : bool :=
  match v with JStr _ => true | _ => false end.

(** Property [k] of [v] is present and satisfies [p]. *)
Definition has (k : string) (p : JSVal -> bool) (v : JSVal) : bool :=
  match v with
  | JObj m => match m !! k with Some x => p x | None => false end
  | _ => false
  end.

(** An optional property ([k?:]): absent, or present and satisfying [p]. *)
Definition has_opt (k : string) (p : JSVal -> bool) (v : JSVal) : bool :=
  match v with
  | JObj m =>
      match m !! k with
      | Some JUndefined | None => true
      | Some x => p x
      end
  | _ => false
  end.

(** [{ min: number; max: number; avg: number }] *)
Definition is_range (v : JSVal) : bool :=
  has "min" is_number v && has "max" is_number v && has "avg" is_number v.

Definition costSummary_keys : list string :=
  [ "totalMonthlyCostRange"; "llmCostRange"; "knowledgeBaseTokenCostRange";
    "sttCostRange"; "ttsCostRange"; "twilioCostRange"; "serverCostRange";
    "costPerUserRange"; "costPerCallRange" ].

Definition is_costSummary (v : JSVal) : bool :=
  forallb (fun k => has k is_range v) costSummary_keys.

(** The [llm], [stt] and [tts] records of [serviceDetails]. *)
Definition is_modelService (v : JSVal) : bool :=
  has "provider" is_string v && has "model" is_string v
  && has "description" is_string v && has "costRange" is_range v.

Definition is_twilioService (v : JSVal) : bool :=
  has "provider" is_string v && has "description" is_string v
  && has "costRange" is_range v.

Definition is_serverService (v : JSVal) : bool :=
  has "provider" is_string v && has "instanceType" is_string v
  && has "description" is_string v && has "costRange" is_range v.

Definition is_serviceDetails (v : JSVal) : bool :=
  has "llm" is_modelService v && has "stt" is_modelService v
  && has "tts" is_modelService v && has "twilio" is_twilioService v
  && has "server" is_serverService v.

Definition is_recommendations (v : JSVal) : bool :=
  has "bestValueLLM" is_string v && has "bestQualityLLM" is_string v
  && has "bestBalanceLLM" is_string v && has "bestSTT" is_string v
  && has "bestTTS" is_string v.

Definition is_CostEstimate (v : JSVal) : bool :=
  has "costSummary" is_costSummary v
  && has "serviceDetails" is_serviceDetails v
  && has_opt "recommendations" is_recommendations v.

(** ** The network boundary

    [fetch] either rejects (transport failure) or resolves to a response
    with a status; [response.json()] then yields the decoded body or
    rejects ([None]). *)

Inductive FetchOutcome : Type :=
  | Rejected
  | Responded (status : Z) (body : option JSVal).

(** [response.ok]: the status is in the range 200-299. *)
Definition ok (status : Z) : bool := Z.leb 200 status && Z.leb status 299.

(** The two screens of the two-screen flow. *)
Inductive Screen : Type := FormScreen | ResultsScreen.

(** ** The form controls (lines 246-367 of [App.tsx], lines 232-353 of
    [App_fixed.tsx]; the same in both files) *)

(** [parseInt(e.target.value) || 0] of the three number inputs: the parse
    yields an integer or [NaN] ([None]); [NaN] and zero are falsy, so the
    right operand is taken for them. *)
Definition numberInput (parsed : option Z) : Z :=
  match parsed with
  | Some n => if Z.eqb n 0 then 0 else n
  | None => 0
  end.

(** The constraints the markup puts on the controls: [required min="1"] on
    the three number inputs (whose displayed value is the stored integer)
    and [required] on the four selects (a non-empty selected value). *)
Definition constraintsHold (fd : FormData) : bool :=
  Z.leb 1 (callsPerDay fd) && Z.leb 1 (avgCallDuration fd)
  && Z.leb 1 (estimatedUsers fd)
  && negb (String.eqb (knowledgeBaseSize fd) "")
  && negb (String.eqb (llmProvider fd) "")
  && negb (String.eqb (sttProvider fd) "")
  && negb (String.eqb (ttsProvider fd) "").

(** ** Evaluating the expressions of the results markup

    The results markup reads properties of [estimate] and calls [toFixed]
    on some of them.  Reading a property of [undefined] or [null] throws,
    and so does calling [toFixed] on anything but a number; a throw
    ([None]) aborts the render. *)

Definition nullish (v : JSVal) : bool :=
  match v with JUndefined | JNull => true | _ => false end.

(** [v.k] for the property names of the markup, none of which exists on a
    primitive value or on an array. *)
Definition member (k : string) (v : JSVal) : option JSVal :=
  if nullish v then None else Some (prop k v).

(** [v.k1.k2...] *)
Fixpoint path (ks : list string) (v : JSVal) : option JSVal :=
  match ks with
  | [] => Some v
  | k :: ks' =>
      match member k v with
      | None => None
      | Some x => path ks' x
      end
  end.

(** What ends up between the tags: a value put there as it is, or a number
    formatted by [toFixed(digits)] (the digits are not computed here).
    Evaluation stops at the value: what the rendering library does with a
    child is not part of it.  [primitive] below tells the children it
    shows as text or skips from the objects and arrays it does not. *)
Inductive Child : Type :=
  | Value (v : JSVal)
  | Fixed (q : Q) (digits : nat).

(** An expression in braces: [{estimate.k1.k2.k3.toFixed(d)}],
    [{estimate.k1.k2.k3}], or a value that does not come from [estimate]. *)
Inductive Hole : Type :=
  | HFixed (ks : list string) (digits : nat)
  | HValue (ks : list string)
  | HLit (v : JSVal).

(** A hole, or a block [{estimate.k && ( ... )}] with holes inside. *)
Inductive Slot : Type :=
  | Plain (h : Hole)
  | Guarded (ks : list string) (inner : list Hole).

Definition evalHole (e : JSVal) (h : Hole) : option Child :=
  match h with
  | HFixed ks d =>
      match path ks e with
      | Some (JNum q) => Some (Fixed q d)
      | _ => None
      end
  | HValue ks =>
      match path ks e with
      | Some v => Some (Value v)
      | None => None
      end
  | HLit v => Some (Value v)
  end.

(** [g && (block)] is [g] itself when [g] is falsy. *)
Definition evalSlot (e : JSVal) (s : Slot) : option (list Child) :=
  match s with
  | Plain h =>
      match evalHole e h with
      | Some c => Some [c]
      | None => None
      end
  | Guarded ks inner =>
      match path ks e with
      | None => None
      | Some g => if truthy g then mapM (evalHole e) inner else Some [Value g]
      end
  end.

Definition evalSlots (e : JSVal) (ss : list Slot) : option (list Child) :=
  match mapM (evalSlot e) ss with
  | Some css => Some (concat css)
  | None => None
  end.

(** A value that is shown as text or not at all: a string, a number, a
    boolean, [null] or [undefined], but no object and no array. *)
Definition primitiveValue (v : JSVal) : bool :=
  match v with
  | JObj _ | JArr _ => false
  | _ => true
  end.

Definition primitive (c : Child) : bool :=
  match c with
  | Fixed _ _ => true
  | Value v => primitiveValue v
  end.

(** [v.k1.k2...] read without throwing: [undefined] where the strict
    reading throws. *)
Fixpoint props (ks : list string) (v : JSVal) : JSVal :=
  match ks with
  | [] => v
  | k :: ks' => props ks' (prop k v)
  end.

(** Does a hole, a slot evaluate without a throw? *)
Definition holeOK (e : JSVal) (h : Hole) : bool :=
  match evalHole e h with Some _ => true | None => false end.

Definition slotOK (e : JSVal) (s : Slot) : bool :=
  match evalSlot e s with Some _ => true | None => false end.

(** Are the children a hole, a slot contributes primitive? *)
Definition holePrimitive (e : JSVal) (h : Hole) : bool :=
  match h with
  | HFixed _ _ => true
  | HValue ks => primitiveValue (props ks e)
  | HLit v => primitiveValue v
  end.

Definition slotPrimitive (e : JSVal) (s : Slot) : bool :=
  match s with
  | Plain h => holePrimitive e h
  | Guarded ks inner =>
      if truthy (props ks e) then forallb (holePrimitive e) inner
      else primitiveValue (props ks e)
  end.

(** The three fields of a cost range and the five services. *)
Definition rangeFields : list string := [ "min"; "max"; "avg" ].

Definition serviceNames : list string :=
  [ "llm"; "stt"; "tts"; "twilio"; "server" ].

(** ** [src/App.tsx]: the two-screen flow *)

Module App.

(** The five [useState] cells of the component (lines 128-146). *)
Record State : Type := mkState {
  formData : FormData;
  isLoading : bool;
  estimate : JSVal;
  error : option string;
  showResults : bool
}.

Definition initialState : State :=
  {| formData := initialFormData;
     isLoading := false;
     estimate := JNull;
     error := None;
     showResults := false |}.

Definition setFormData (fd : FormData) (s : State) : State :=
  mkState fd (isLoading s) (estimate s) (error s) (showResults s).
Definition setIsLoading (b : bool) (s : State) : State :=
  mkState (formData s) b (estimate s) (error s) (showResults s).
Definition setEstimate (v : JSVal) (s : State) : State :=
  mkState (formData s) (isLoading s) v (error s) (showResults s).
Definition setError (e : option string) (s : State) : State :=
  mkState (formData s) (isLoading s) (estimate s) e (showResults s).
Definition setShowResults (b : bool) (s : State) : State :=
  mkState (formData s) (isLoading s) (estimate s) (error s) b.

(** The component together with its environment: the bodies handed to
    [fetch] so far (oldest first) and the number of requests that have
    not settled yet. *)
Record World : Type := mkWorld {
  ui : State;
  requests : list JSVal;
  outstanding : nat
}.

Definition initialWorld : World :=
  {| ui := initialState; requests := []; outstanding := 0 |}.

Definition on_ui (f : State -> State) (w : World) : World :=
  mkWorld (f (ui w)) (requests w) (outstanding w).

(** [handleInputChange] (lines 148-153). *)
Definition handleInputChange (f : Field) (v : field_type f) (s : State)
  : State :=
  setFormData (with_field f v (formData s)) s.

(** The object literal [requestData] (lines 162-172). *)
Definition requestData (fd : FormData) : JSVal :=
  JObj (list_to_map
    [ ("callsPerDay", num (callsPerDay fd));
      ("avgCallDuration", num (avgCallDuration fd));
      ("estimatedUsers", num (estimatedUsers fd));
      ("llmProvider", JStr (llmProvider fd));
      ("sttProvider", JStr (sttProvider fd));
      ("ttsProvider", JStr (ttsProvider fd));
      ("knowledgeBaseSize", JStr (knowledgeBaseSize fd));
      ("selfHosted", JBool false);
      ("gpuInstanceType", JStr "") ]).

(** The message of the [catch] block (line 194). *)
Definition failureMessage : string :=
  "Failed to calculate cost estimate. Please try again.".

(** [Array.isArray(data) ? data[0] : data] (line 190). *)
Definition estimateData (data : JSVal) : JSVal :=
  match data with
  | JArr elems => index elems 0
  | _ => data
  end.

(** [handleSubmit] up to [await fetch(...)] (lines 156-182): the two
    setters, the payload built from the form data of the current render,
    and the request handed to the network. *)
Definition handleSubmit_begin (w : World) : World :=
  let s := setError None (setIsLoading true (ui w)) in
  mkWorld s (requests w ++ [requestData (formData (ui w))])
    (S (outstanding w)).

(** The [catch] block followed by [finally] (lines 193-198). *)
Definition handleSubmit_catch (s : State) : State :=
  setIsLoading false (setError (Some failureMessage) s).

(** [handleSubmit] from the settling of the request on (lines 184-198). *)
Definition handleSubmit_settle (o : FetchOutcome) (w : World) : World :=
  let s :=
    match o with
    | Rejected => handleSubmit_catch (ui w)
    | Responded status body =>
        if negb (ok status) then handleSubmit_catch (ui w)
        else
          match body with
          | None => handleSubmit_catch (ui w)
          | Some data =>
              setIsLoading false
                (setShowResults true
                  (setEstimate (estimateData data) (ui w)))
          end
    end in
  mkWorld s (requests w) (Nat.pred (outstanding w)).

(** [handleBackToForm] (lines 201-205). *)
Definition handleBackToForm (s : State) : State :=
  setError None (setEstimate JNull (setShowResults false s)).

(** [handleRetry] (lines 207-210). *)
Definition handleRetry (w : World) : World :=
  handleSubmit_begin (on_ui (setError None) w).

(** [isFormValid] (lines 212-222): a chain of [&&], so the value is
    [false], the first empty string, or the last operand. *)
Definition isFormValid (fd : FormData) : JSVal :=
  js_and (js_and (js_and (js_and (js_and (js_and
    (JBool (Z.ltb 0 (callsPerDay fd)))
    (JBool (Z.ltb 0 (avgCallDuration fd))))
    (JBool (Z.ltb 0 (estimatedUsers fd))))
    (JStr (llmProvider fd)))
    (JStr (sttProvider fd)))
    (JStr (ttsProvider fd)))
    (JStr (knowledgeBaseSize fd)).

(** *** What the markup offers to the user

    [!showResults ? (form) : (results)] (line 227). *)
Definition screen (s : State) : Screen :=
  if negb (showResults s) then FormScreen else ResultsScreen.

(** [disabled={!isFormValid() || isLoading}] (line 382). *)
Definition submitDisabled (s : State) : bool :=
  negb (truthy (isFormValid (formData s))) || isLoading s.

(** The submit button is part of the form page. *)
Definition submitOffered (s : State) : bool :=
  negb (showResults s) && negb (submitDisabled s).

(** The retry button sits in the [estimate ? (...)] branch of the results
    page with [disabled={isLoading}] (lines 412, 616-618).  This and the
    next test read the conditions of the branches only; they also hold in
    states whose results markup throws, so the events below include
    presses that such a state cannot receive. *)
Definition retryOffered (s : State) : bool :=
  showResults s && truthy (estimate s) && negb (isLoading s).

(** A back button sits in the [estimate ? (...)] branch and in the
    [error ? (...)] branch of the results page (lines 609-610, 635-641). *)
Definition backOffered (s : State) : bool :=
  showResults s && (truthy (estimate s) || truthy_str (error s)).

(** The inputs are part of the form page. *)
Definition inputsOffered (s : State) : bool := negb (showResults s).

(** What can happen to the running component: an [onChange] of an input
    (the handler receives the chosen string, or [parseInt(value) || 0] for
    a number input), a submission of the form, a press of one of the two
    buttons of the results page, and the settling of a pending request. *)
Inductive Event : Type :=
  | Change (f : Field) (v : field_type f)
  | SubmitForm
  | ClickBackToForm
  | ClickRetry
  | FetchSettles (o : FetchOutcome).

Definition step (w : World) (e : Event) : World :=
  match e with
  | Change f v =>
      if inputsOffered (ui w) then on_ui (handleInputChange f v) w else w
  | SubmitForm =>
      if submitOffered (ui w) then handleSubmit_begin w else w
  | ClickBackToForm =>
      if backOffered (ui w) then on_ui handleBackToForm w else w
  | ClickRetry =>
      if retryOffered (ui w) then handleRetry w else w
  | FetchSettles o =>
      match outstanding w with
      | O => w
      | S _ => handleSubmit_settle o w
      end
  end.

Definition run (w : World) (es : list Event) : World :=
  fold_left step es w.

(** The state after a failed submission: nothing in flight and the
    generic message stored. *)
Definition Failed (s : State) : Prop :=
  isLoading s = false /\ error s = Some failureMessage.


(** *** The results markup (lines 412-634)

    The holes of the [estimate ? (...)] branch in the order of the file. *)
Definition estimateSlots (fd : FormData) : list Slot :=
  [ Plain (HFixed ["costSummary"; "totalMonthlyCostRange"; "min"] 0);
    Plain (HFixed ["costSummary"; "totalMonthlyCostRange"; "max"] 0);
    Plain (HFixed ["costSummary"; "totalMonthlyCostRange"; "avg"] 2);
    Plain (HValue ["serviceDetails"; "llm"; "provider"]);
    Plain (HFixed ["costSummary"; "llmCostRange"; "min"] 2);
    Plain (HFixed ["costSummary"; "llmCostRange"; "max"] 2);
    Plain (HFixed ["costSummary"; "llmCostRange"; "avg"] 2);
    Plain (HValue ["serviceDetails"; "stt"; "provider"]);
    Plain (HFixed ["costSummary"; "sttCostRange"; "min"] 2);
    Plain (HFixed ["costSummary"; "sttCostRange"; "max"] 2);
    Plain (HFixed ["costSummary"; "sttCostRange"; "avg"] 2);
    Plain (HValue ["serviceDetails"; "tts"; "provider"]);
    Plain (HFixed ["costSummary"; "ttsCostRange"; "min"] 2);
    Plain (HFixed ["costSummary"; "ttsCostRange"; "max"] 2);
    Plain (HFixed ["costSummary"; "ttsCostRange"; "avg"] 2);
    Plain (HLit (JStr (knowledgeBaseSize fd)));
    Plain (HFixed ["costSummary"; "knowledgeBaseTokenCostRange"; "min"] 2);
    Plain (HFixed ["costSummary"; "knowledgeBaseTokenCostRange"; "max"] 2);
    Plain (HFixed ["costSummary"; "knowledgeBaseTokenCostRange"; "avg"] 2);
    Plain (HFixed ["costSummary"; "twilioCostRange"; "min"] 2);
    Plain (HFixed ["costSummary"; "twilioCostRange"; "max"] 2);
    Plain (HFixed ["costSummary"; "twilioCostRange"; "avg"] 2);
    Plain (HFixed ["costSummary"; "serverCostRange"; "min"] 2);
    Plain (HFixed ["costSummary"; "serverCostRange"; "max"] 2);
    Plain (HFixed ["costSummary"; "serverCostRange"; "avg"] 2);
    Plain (HFixed ["costSummary"; "costPerUserRange"; "avg"] 2);
    Plain (HFixed ["costSummary"; "costPerUserRange"; "min"] 2);
    Plain (HFixed ["costSummary"; "costPerUserRange"; "max"] 2);
    Plain (HFixed ["costSummary"; "costPerCallRange"; "avg"] 2);
    Plain (HFixed ["costSummary"; "costPerCallRange"; "min"] 2);
    Plain (HFixed ["costSummary"; "costPerCallRange"; "max"] 2);
    Guarded ["serviceDetails"]
      [ HValue ["serviceDetails"; "llm"; "model"];
        HValue ["serviceDetails"; "llm"; "provider"];
        HValue ["serviceDetails"; "stt"; "model"];
        HValue ["serviceDetails"; "stt"; "provider"];
        HValue ["serviceDetails"; "tts"; "model"];
        HValue ["serviceDetails"; "tts"; "provider"];
        HValue ["serviceDetails"; "twilio"; "provider"];
        HValue ["serviceDetails"; "server"; "instanceType"];
        HValue ["serviceDetails"; "server"; "provider"] ];
    Guarded ["recommendations"]
      [ HValue ["recommendations"; "bestValueLLM"];
        HValue ["recommendations"; "bestQualityLLM"] ] ].

(** What the component shows. *)
Inductive View : Type :=
  | FormPage (fd : FormData) (banner : option string) (submitOff busy : bool)
  | EstimatePage (children : list Child) (retryOff : bool)
  | ErrorPage (message : option string)
  | BlankPage.

(** The [return] of the component (lines 224-653): the form page with the
    [error && ...] banner, or the results page with its three branches
    [estimate ? ... : error ? ... : null].  [None] stands for a throw
    while the expressions of the markup are evaluated; a result says that
    they all evaluate and lists the children handed over. *)
Definition render (s : State) : option View :=
  if negb (showResults s) then
    Some (FormPage (formData s)
            (if truthy_str (error s) then error s else None)
            (submitDisabled s) (isLoading s))
  else if truthy (estimate s) then
    match evalSlots (estimate s) (estimateSlots (formData s)) with
    | Some cs => Some (EstimatePage cs (isLoading s))
    | None => None
    end
  else if truthy_str (error s) then Some (ErrorPage (error s))
  else Some BlankPage.

End App.

(** ** [src/App_fixed.tsx]: the split-pane flow *)

Module App_fixed.

(** The four [useState] cells of the component (lines 128-145). *)
Record State : Type := mkState {
  formData : FormData;
  isLoading : bool;
  estimate : JSVal;
  error : option string
}.

Definition initialState : State :=
  {| formData := initialFormData;
     isLoading := false;
     estimate := JNull;
     error := None |}.

Definition setFormData (fd : FormData) (s : State) : State :=
  mkState fd (isLoading s) (estimate s) (error s).
Definition setIsLoading (b : bool) (s : State) : State :=
  mkState (formData s) b (estimate s) (error s).
Definition setEstimate (v : JSVal) (s : State) : State :=
  mkState (formData s) (isLoading s) v (error s).
Definition setError (e : option string) (s : State) : State :=
  mkState (formData s) (isLoading s) (estimate s) e.

Record World : Type := mkWorld {
  ui : State;
  requests : list JSVal;
  outstanding : nat
}.

(** [handleInputChange] (lines 147-152). *)
Definition handleInputChange (f : Field) (v : field_type f) (s : State)
  : State :=
  setFormData (with_field f v (formData s)) s.

(** The object literal [requestData] (lines 161-171). *)
Definition requestData (fd : FormData) : JSVal :=
  JObj (list_to_map
    [ ("callsPerDay", num (callsPerDay fd));
      ("avgCallDuration", num (avgCallDuration fd));
      ("estimatedUsers", num (estimatedUsers fd));
      ("llmProvider", JStr (llmProvider fd));
      ("sttProvider", JStr (sttProvider fd));
      ("ttsProvider", JStr (ttsProvider fd));
      ("knowledgeBaseSize", JStr (knowledgeBaseSize fd));
      ("selfHosted", JBool false);
      ("gpuInstanceType", JStr "") ]).

(** The message of the [catch] block (line 192). *)
Definition failureMessage : string :=
  "Failed to calculate cost estimate. Please try again.".

(** [Array.isArray(data) ? data[0] : data] (line 189). *)
Definition estimateData (data : JSVal) : JSVal :=
  match data with
  | JArr elems => index elems 0
  | _ => data
  end.

(** [handleSubmit] up to [await fetch(...)] (lines 155-181). *)
Definition handleSubmit_begin (w : World) : World :=
  let s := setError None (setIsLoading true (ui w)) in
  mkWorld s (requests w ++ [requestData (formData (ui w))])
    (S (outstanding w)).

(** The [catch] block followed by [finally] (lines 191-196). *)
Definition handleSubmit_catch (s : State) : State :=
  setIsLoading false (setError (Some failureMessage) s).

(** [handleSubmit] from the settling of the request on (lines 183-196). *)
Definition handleSubmit_settle (o : FetchOutcome) (w : World) : World :=
  let s :=
    match o with
    | Rejected => handleSubmit_catch (ui w)
    | Responded status body =>
        if negb (ok status) then handleSubmit_catch (ui w)
        else
          match body with
          | None => handleSubmit_catch (ui w)
          | Some data =>
              setIsLoading false (setEstimate (estimateData data) (ui w))
          end
    end in
  mkWorld s (requests w) (Nat.pred (outstanding w)).

(** [isFormValid] (lines 199-209). *)
Definition isFormValid (fd : FormData) : JSVal :=
  js_and (js_and (js_and (js_and (js_and (js_and
    (JBool (Z.ltb 0 (callsPerDay fd)))
    (JBool (Z.ltb 0 (avgCallDuration fd))))
    (JBool (Z.ltb 0 (estimatedUsers fd))))
    (JStr (llmProvider fd)))
    (JStr (sttProvider fd)))
    (JStr (ttsProvider fd)))
    (JStr (knowledgeBaseSize fd)).

(** [disabled={!isFormValid() || isLoading}] (line 359). *)
Definition submitDisabled (s : State) : bool :=
  negb (truthy (isFormValid (formData s))) || isLoading s.


(** *** The results panel (lines 395-579) *)
Definition estimateSlots : list Slot :=
  [ Plain (HFixed ["costSummary"; "totalMonthlyCostRange"; "min"] 0);
    Plain (HFixed ["costSummary"; "totalMonthlyCostRange"; "max"] 0);
    Plain (HFixed ["costSummary"; "totalMonthlyCostRange"; "avg"] 2);
    Plain (HFixed ["costSummary"; "llmCostRange"; "min"] 2);
    Plain (HFixed ["costSummary"; "llmCostRange"; "max"] 2);
    Plain (HFixed ["costSummary"; "llmCostRange"; "avg"] 2);
    Plain (HFixed ["costSummary"; "sttCostRange"; "min"] 2);
    Plain (HFixed ["costSummary"; "sttCostRange"; "max"] 2);
    Plain (HFixed ["costSummary"; "sttCostRange"; "avg"] 2);
    Plain (HFixed ["costSummary"; "ttsCostRange"; "min"] 2);
    Plain (HFixed ["costSummary"; "ttsCostRange"; "max"] 2);
    Plain (HFixed ["costSummary"; "ttsCostRange"; "avg"] 2);
    Plain (HFixed ["costSummary"; "knowledgeBaseTokenCostRange"; "min"] 2);
    Plain (HFixed ["costSummary"; "knowledgeBaseTokenCostRange"; "max"] 2);
    Plain (HFixed ["costSummary"; "knowledgeBaseTokenCostRange"; "avg"] 2);
    Plain (HFixed ["costSummary"; "twilioCostRange"; "min"] 2);
    Plain (HFixed ["costSummary"; "twilioCostRange"; "max"] 2);
    Plain (HFixed ["costSummary"; "twilioCostRange"; "avg"] 2);
    Plain (HFixed ["costSummary"; "serverCostRange"; "min"] 2);
    Plain (HFixed ["costSummary"; "serverCostRange"; "max"] 2);
    Plain (HFixed ["costSummary"; "serverCostRange"; "avg"] 2);
    Plain (HFixed ["costSummary"; "costPerUserRange"; "avg"] 2);
    Plain (HFixed ["costSummary"; "costPerUserRange"; "min"] 2);
    Plain (HFixed ["costSummary"; "costPerUserRange"; "max"] 2);
    Plain (HFixed ["costSummary"; "costPerCallRange"; "avg"] 2);
    Plain (HFixed ["costSummary"; "costPerCallRange"; "min"] 2);
    Plain (HFixed ["costSummary"; "costPerCallRange"; "max"] 2);
    Guarded ["serviceDetails"]
      [ HValue ["serviceDetails"; "llm"; "model"];
        HValue ["serviceDetails"; "llm"; "provider"];
        HValue ["serviceDetails"; "stt"; "model"];
        HValue ["serviceDetails"; "stt"; "provider"];
        HValue ["serviceDetails"; "tts"; "model"];
        HValue ["serviceDetails"; "tts"; "provider"];
        HValue ["serviceDetails"; "twilio"; "provider"];
        HValue ["serviceDetails"; "server"; "instanceType"];
        HValue ["serviceDetails"; "server"; "provider"] ];
    Guarded ["recommendations"]
      [ HValue ["recommendations"; "bestValueLLM"];
        HValue ["recommendations"; "bestQualityLLM"] ] ].

(** What the component shows: the form, the [error && ...] banner of the
    results pane, and the pane itself, which holds the estimate or, for a
    falsy [estimate] ([None]), the invitation to fill in the form. *)
Record View : Type := mkView {
  form : FormData;
  submitOff : bool;
  busy : bool;
  banner : option string;
  panel : option (list Child)
}.

(** The [return] of the component (lines 211-586). *)
Definition render (s : State) : option View :=
  let b := if truthy_str (error s) then error s else None in
  if truthy (estimate s) then
    match evalSlots (estimate s) estimateSlots with
    | Some cs =>
        Some (mkView (formData s) (submitDisabled s) (isLoading s) b (Some cs))
    | None => None
    end
  else Some (mkView (formData s) (submitDisabled s) (isLoading s) b None).

(** *** What the markup offers to the user

    The form is always on the screen; there is no back and no retry. *)
Inductive Event : Type :=
  | Change (f : Field) (v : field_type f)
  | SubmitForm
  | FetchSettles (o : FetchOutcome).

Definition initialWorld : World :=
  {| ui := initialState; requests := []; outstanding := 0 |}.

Definition on_ui (f : State -> State) (w : World) : World :=
  mkWorld (f (ui w)) (requests w) (outstanding w).

Definition step (w : World) (e : Event) : World :=
  match e with
  | Change f v => on_ui (handleInputChange f v) w
  | SubmitForm =>
      if submitDisabled (ui w) then w else handleSubmit_begin w
  | FetchSettles o =>
      match outstanding w with
      | O => w
      | S _ => handleSubmit_settle o w
      end
  end.

Definition run (w : World) (es : list Event) : World :=
  fold_left step es w.

End App_fixed.


(** ** Relating the two variants *)

(** The split-pane component has every state cell of the two-screen one
    except [showResults]. *)
Definition erase (s : App.State) : App_fixed.State :=
  App_fixed.mkState (App.formData s) (App.isLoading s) (App.estimate s)
    (App.error s).

Definition eraseW (w : App.World) : App_fixed.World :=
  App_fixed.mkWorld (erase (App.ui w)) (App.requests w) (App.outstanding w).

(** The events of the split-pane component as events of the two-screen
    component. *)
Definition formEvent (e : App_fixed.Event) : App.Event :=
  match e with
  | App_fixed.Change f v => App.Change f v
  | App_fixed.SubmitForm => App.SubmitForm
  | App_fixed.FetchSettles o => App.FetchSettles o
  end.

(** The outcomes that make the [try] block of [handleSubmit] throw:
    [fetch] rejects, [!response.ok], or [response.json()] rejects. *)
Definition call_failed (o : FetchOutcome) : bool :=
  match o with
  | Rejected => true
  | Responded status body =>
      negb (ok status) || match body with None => true | Some _ => false end
  end.

(** ** Sample data *)

(** The form of a user who kept the default numbers and chose the three
    providers and a knowledge-base size. *)
Definition formA : FormData :=
  {| callsPerDay := 50;
     avgCallDuration := 5;
     estimatedUsers := 10;
     llmProvider := "OpenAI";
     customLlmProvider := Some "";
     sttProvider := "Deepgram";
     customSttProvider := Some "";
     ttsProvider := "ElevenLabs";
     customTtsProvider := Some "";
     knowledgeBaseSize := "Medium (1-10MB)";
     selfHosted := false;
     gpuInstanceType := Some "" |}.

(** The four selections that turn the initial form into [formA]. *)
Definition fillForm : list App.Event :=
  [ App.Change F_llmProvider "OpenAI";
    App.Change F_sttProvider "Deepgram";
    App.Change F_ttsProvider "ElevenLabs";
    App.Change F_knowledgeBaseSize "Medium (1-10MB)" ].

Definition range (lo hi mid : Z) : JSVal :=
  JObj (list_to_map [("min", num lo); ("max", num hi); ("avg", num mid)]).

Definition modelService (p m d : string) (r : JSVal) : JSVal :=
  JObj (list_to_map
    [("provider", JStr p); ("model", JStr m); ("description", JStr d);
     ("costRange", r)]).

Definition sampleCostSummary : JSVal :=
  JObj (list_to_map
    [ ("totalMonthlyCostRange", range 100 300 200);
      ("llmCostRange", range 10 30 20);
      ("knowledgeBaseTokenCostRange", range 1 3 2);
      ("sttCostRange", range 10 30 20);
      ("ttsCostRange", range 10 30 20);
      ("twilioCostRange", range 10 30 20);
      ("serverCostRange", range 50 150 100);
      ("costPerUserRange", range 10 30 20);
      ("costPerCallRange", range 1 3 2) ]).

Definition sampleServiceDetails : JSVal :=
  JObj (list_to_map
    [ ("llm", modelService "OpenAI" "gpt-4o" "chat" (range 10 30 20));
      ("stt", modelService "Deepgram" "nova" "speech" (range 10 30 20));
      ("tts", modelService "ElevenLabs" "turbo" "voice" (range 10 30 20));
      ("twilio", JObj (list_to_map
        [("provider", JStr "Twilio"); ("description", JStr "carrier");
         ("costRange", range 10 30 20)]));
      ("server", JObj (list_to_map
        [("provider", JStr "AWS"); ("instanceType", JStr "t3.medium");
         ("description", JStr "host"); ("costRange", range 50 150 100)])) ]).

(** A reply of the declared shape, without [recommendations]. *)
Definition sampleEstimate : JSVal :=
  JObj (list_to_map
    [ ("costSummary", sampleCostSummary);
      ("serviceDetails", sampleServiceDetails) ]).

(** A reply that lacks [serviceDetails]. *)
Definition summaryOnly : JSVal :=
  JObj (list_to_map [ ("costSummary", sampleCostSummary) ]).

(** The component after the form was filled in and submitted. *)
Definition submittedWorld : App.World :=
  App.run App.initialWorld (fillForm ++ [App.SubmitForm]).

(** The component showing the results of a first successful submission. *)
Definition resultsWorld : App.World :=
  App.step submittedWorld
    (App.FetchSettles (Responded 200 (Some (JArr [sampleEstimate])))).

(** The results page while a retry is in flight. *)
Definition retryingWorld : App.World := App.step resultsWorld App.ClickRetry.

(** [formA] with another number of calls per day. *)
Definition formA99 : FormData := with_field F_callsPerDay 99 formA.

(** A session in which the user changes the number of calls per day while
    the first request is in flight, sees the results and presses retry. *)
Definition editedRetryWorld : App.World :=
  App.run App.initialWorld
    (fillForm ++
     [ App.SubmitForm;
       App.Change F_callsPerDay 99;
       App.FetchSettles (Responded 200 (Some (JArr [sampleEstimate])));
       App.ClickRetry ]).

(** A second submission of the form right after the first successful
    reply, as events of the split-pane component. *)
Definition resubmitAfterSuccess : list App_fixed.Event :=
  [ App_fixed.Change F_llmProvider "OpenAI";
    App_fixed.Change F_sttProvider "Deepgram";
    App_fixed.Change F_ttsProvider "ElevenLabs";
    App_fixed.Change F_knowledgeBaseSize "Medium (1-10MB)";
    App_fixed.SubmitForm;
    App_fixed.FetchSettles (Responded 200 (Some sampleEstimate));
    App_fixed.SubmitForm ].

(** [formA] with the LLM select back on its placeholder. *)
Definition formNoLlm : FormData := with_field F_llmProvider "" formA.

(** A session in which the LLM select is put back on its placeholder while
    the first request is in flight, and retry is pressed on the results
    page. *)
Definition retryAfterReset : list App.Event :=
  fillForm ++
  [ App.SubmitForm;
    App.Change F_llmProvider "";
    App.FetchSettles (Responded 200 (Some (JArr [sampleEstimate])));
    App.ClickRetry ].

(** ** Invariants of the running component *)

(** A request is in flight exactly while [isLoading] is set, and then it
    is the only one. *)
Definition single_flight (w : App.World) : Prop :=
  App.outstanding w = if App.isLoading (App.ui w) then 1%nat else 0%nat.

(** While loading no message is stored, and a stored message is the one of
    the [catch] block. *)
Definition message_inv (w : App.World) : Prop :=
  (App.isLoading (App.ui w) = true -> App.error (App.ui w) = None)
  /\ (App.error (App.ui w) = None
      \/ App.error (App.ui w) = Some App.failureMessage).

(** On the results page either an estimate is on display, or nothing is
    loading and no message is stored. *)
Definition view_inv (w : App.World) : Prop :=
  App.showResults (App.ui w) = true ->
  truthy (App.estimate (App.ui w)) = true
  \/ (App.isLoading (App.ui w) = false /\ App.error (App.ui w) = None).

(** The same two invariants for the split-pane component. *)
Definition fixed_single_flight (w : App_fixed.World) : Prop :=
  App_fixed.outstanding w
  = if App_fixed.isLoading (App_fixed.ui w) then 1%nat else 0%nat.

Definition fixed_message_inv (w : App_fixed.World) : Prop :=
  (App_fixed.isLoading (App_fixed.ui w) = true ->
   App_fixed.error (App_fixed.ui w) = None)
  /\ (App_fixed.error (App_fixed.ui w) = None
      \/ App_fixed.error (App_fixed.ui w) = Some App_fixed.failureMessage).

(** [fillForm] followed by a submission, for the split-pane component. *)
Definition submitFilledFixed : list App_fixed.Event :=
  [ App_fixed.Change F_llmProvider "OpenAI";
    App_fixed.Change F_sttProvider "Deepgram";
    App_fixed.Change F_ttsProvider "ElevenLabs";
    App_fixed.Change F_knowledgeBaseSize "Medium (1-10MB)";
    App_fixed.SubmitForm ].

(** The session of a retry that fails on the results page. *)
Definition failedRetry : list App.Event :=
  fillForm ++
  [ App.SubmitForm;
    App.FetchSettles (Responded 200 (Some (JArr [sampleEstimate])));
    App.ClickRetry;
    App.FetchSettles (Responded 500 None) ].

(** The session of a first submission answered by an empty array. *)
Definition emptyReply : list App.Event :=
  fillForm ++
  [ App.SubmitForm; App.FetchSettles (Responded 200 (Some (JArr []))) ].

(** ** Proof steps for conjunctions of boolean tests *)

Ltac break_andb :=
  repeat match goal with
  | H : _ && _ = true |- _ => apply andb_prop in H; destruct H
  | H : negb _ = true |- _ => apply negb_true_iff in H
  | H : _ /\ _ |- _ => destruct H
  end.

Ltac build_andb :=
  repeat match goal with
  | |- _ && _ = true => apply andb_true_intro; split
  | |- _ /\ _ => split
  | |- negb _ = true => apply negb_true_iff
  end.

(** * Properties *)

(** ** Sanity checks of the embedding on concrete inputs *)

Example sampleEstimate_shape : is_CostEstimate sampleEstimate = true.
Proof. vm_compute. reflexivity. Qed.

Example empty_object_shape : is_CostEstimate (JObj ∅) = false.
Proof. vm_compute. reflexivity. Qed.

Example fillForm_gives_formA :
  App.formData (App.ui (App.run App.initialWorld fillForm)) = formA.
Proof. reflexivity. Qed.

Example initial_form_invalid :
  App.isFormValid initialFormData = JStr "".
Proof. reflexivity. Qed.

Example formA_valid : App.isFormValid formA = JStr "Medium (1-10MB)".
Proof. reflexivity. Qed.

Example submittedWorld_state :
  App.isLoading (App.ui submittedWorld) = true
  /\ App.outstanding submittedWorld = 1%nat
  /\ App.requests submittedWorld = [App.requestData formA].
Proof. repeat split. Qed.

Example resultsWorld_state :
  App.ui resultsWorld
  = App.mkState formA false sampleEstimate None true.
Proof. reflexivity. Qed.

(** ** The form model *)

Lemma truthy_JStr (s : string) : truthy (JStr s) = true <-> s <> "".
Proof.
  simpl. rewrite negb_true_iff. split.
  - intros H ->. discriminate.
  - intros H. apply String.eqb_neq. exact H.
Qed.

Lemma with_field_comm (f1 f2 : Field) (v1 : field_type f1)
  (v2 : field_type f2) (fd : FormData) :
  f1 <> f2 ->
  with_field f1 v1 (with_field f2 v2 fd)
  = with_field f2 v2 (with_field f1 v1 fd).
Proof.
  intros Hne. destruct f1, f2; try reflexivity; contradiction Hne; reflexivity.
Qed.

(** C7. The value of [isFormValid] is truthy exactly when the three numbers
    are positive and the three providers and the knowledge-base size are
    non-empty.  It is a function of the form data alone, and two changes of
    different fields lead to the same form data in either order, so the
    verdict does not depend on the order in which the fields were set. *)
Theorem isFormValid_iff (fd : FormData) :
  (truthy (App.isFormValid fd) = true <->
     0 < callsPerDay fd /\ 0 < avgCallDuration fd /\ 0 < estimatedUsers fd
     /\ llmProvider fd <> "" /\ sttProvider fd <> ""
     /\ ttsProvider fd <> "" /\ knowledgeBaseSize fd <> "")
  /\ (forall (f1 f2 : Field) (v1 : field_type f1) (v2 : field_type f2),
        f1 <> f2 ->
        App.isFormValid (with_field f1 v1 (with_field f2 v2 fd))
        = App.isFormValid (with_field f2 v2 (with_field f1 v1 fd))).
Proof.
  split.
  - unfold App.isFormValid, js_and.
    destruct (Z.ltb_spec 0 (callsPerDay fd)) as [H1|H1]; simpl;
      [|split; [discriminate | lia]].
    destruct (Z.ltb_spec 0 (avgCallDuration fd)) as [H2|H2]; simpl;
      [|split; [discriminate | lia]].
    destruct (Z.ltb_spec 0 (estimatedUsers fd)) as [H3|H3]; simpl;
      [|split; [discriminate | lia]].
    destruct (String.eqb_spec (llmProvider fd) "") as [E4|E4]; simpl;
      [rewrite E4; split; [discriminate | intros (_&_&_&H&_); now elim H]|].
    destruct (String.eqb_spec (sttProvider fd) "") as [E5|E5]; simpl;
      [rewrite E5; split; [discriminate | intros (_&_&_&_&H&_); now elim H]|].
    destruct (String.eqb_spec (ttsProvider fd) "") as [E6|E6]; simpl;
      [rewrite E6; split; [discriminate | intros (_&_&_&_&_&H&_); now elim H]|].
    destruct (String.eqb_spec (knowledgeBaseSize fd) "") as [E7|E7]; simpl;
      [split; [discriminate | intros (_&_&_&_&_&_&H); now elim H]|].
    split; [intros _; repeat split; assumption | reflexivity].
  - intros f1 f2 v1 v2 Hne. rewrite (with_field_comm f1 f2 v1 v2 fd Hne).
    reflexivity.
Qed.

Lemma isFormValid_iff_witness :
  truthy (App.isFormValid formA) = true
  /\ App.isFormValid
       (with_field F_llmProvider "OpenAI"
          (with_field F_callsPerDay 50 initialFormData))
     = App.isFormValid
         (with_field F_callsPerDay 50
            (with_field F_llmProvider "OpenAI" initialFormData)).
Proof.
  split.
  - apply (proj1 (isFormValid_iff formA)). simpl.
    repeat split; try reflexivity; discriminate.
  - apply (proj2 (isFormValid_iff initialFormData) F_llmProvider F_callsPerDay).
    discriminate.
Defined.

(** C6. Whatever the form holds, the payload carries [selfHosted = false]
    and [gpuInstanceType = ""], the seven active fields unchanged, and
    exactly these nine properties: the three custom-provider fields are
    never part of it, and the stored values of the five inert fields have
    no influence on it. *)
Theorem requestData_payload (fd : FormData) :
  prop "selfHosted" (App.requestData fd) = JBool false
  /\ prop "gpuInstanceType" (App.requestData fd) = JStr ""
  /\ prop "callsPerDay" (App.requestData fd) = num (callsPerDay fd)
  /\ prop "avgCallDuration" (App.requestData fd) = num (avgCallDuration fd)
  /\ prop "estimatedUsers" (App.requestData fd) = num (estimatedUsers fd)
  /\ prop "llmProvider" (App.requestData fd) = JStr (llmProvider fd)
  /\ prop "sttProvider" (App.requestData fd) = JStr (sttProvider fd)
  /\ prop "ttsProvider" (App.requestData fd) = JStr (ttsProvider fd)
  /\ prop "knowledgeBaseSize" (App.requestData fd)
     = JStr (knowledgeBaseSize fd)
  /\ (exists m : gmap string JSVal,
        App.requestData fd = JObj m
        /\ dom m = list_to_set
             [ "callsPerDay"; "avgCallDuration"; "estimatedUsers";
               "llmProvider"; "sttProvider"; "ttsProvider";
               "knowledgeBaseSize"; "selfHosted"; "gpuInstanceType" ]
        /\ m !! "customLlmProvider" = None
        /\ m !! "customSttProvider" = None
        /\ m !! "customTtsProvider" = None)
  /\ (forall (sh : bool) (gpu c1 c2 c3 : option string),
        App.requestData
          (with_field F_selfHosted sh
            (with_field F_gpuInstanceType gpu
              (with_field F_customLlmProvider c1
                (with_field F_customSttProvider c2
                  (with_field F_customTtsProvider c3 fd)))))
        = App.requestData fd).
Proof.
  repeat match goal with |- _ /\ _ => split end; try reflexivity.
  eexists. split; [reflexivity|].
  repeat split; reflexivity.
Qed.

(** ** Unwrapping the reply *)

Lemma is_CostEstimate_object (doc : JSVal) :
  is_CostEstimate doc = true -> exists m, doc = JObj m.
Proof.
  destruct doc; try (unfold is_CostEstimate; simpl; discriminate).
  intros _. eexists. reflexivity.
Qed.

Lemma estimateData_singleton (doc : JSVal) :
  App.estimateData (JArr [doc]) = doc.
Proof. reflexivity. Qed.

Lemma estimateData_not_array (doc : JSVal) :
  isArray doc = false -> App.estimateData doc = doc.
Proof. destruct doc; try reflexivity. discriminate. Qed.

(** C8. For a document of the declared shape, the handler obtains the same
    estimate from the document itself and from the one-element array that
    holds it, and so ends in the same state for both bodies. *)
Theorem estimateData_wrapped (doc : JSVal) :
  is_CostEstimate doc = true ->
  App.estimateData (JArr [doc]) = App.estimateData doc
  /\ (forall (status : Z) (w : App.World),
        App.handleSubmit_settle (Responded status (Some (JArr [doc]))) w
        = App.handleSubmit_settle (Responded status (Some doc)) w).
Proof.
  intros Hshape. destruct (is_CostEstimate_object doc Hshape) as [m ->].
  split; [reflexivity|]. intros status w. reflexivity.
Qed.

Lemma estimateData_wrapped_witness :
  App.estimateData (JArr [sampleEstimate]) = App.estimateData sampleEstimate
  /\ (forall (status : Z) (w : App.World),
        App.handleSubmit_settle
          (Responded status (Some (JArr [sampleEstimate]))) w
        = App.handleSubmit_settle
            (Responded status (Some sampleEstimate)) w).
Proof. apply (estimateData_wrapped sampleEstimate). reflexivity. Defined.

(** ** The two variants *)

Lemma call_failed_catch (o : FetchOutcome) (w : App.World) :
  call_failed o = true ->
  App.ui (App.handleSubmit_settle o w) = App.handleSubmit_catch (App.ui w).
Proof.
  destruct o as [|status [data|]]; simpl; try reflexivity.
  - destruct (ok status); simpl; [discriminate | reflexivity].
  - destruct (ok status); reflexivity.
Qed.

Lemma call_failed_catch_fixed (o : FetchOutcome) (w : App_fixed.World) :
  call_failed o = true ->
  App_fixed.ui (App_fixed.handleSubmit_settle o w)
  = App_fixed.handleSubmit_catch (App_fixed.ui w).
Proof.
  destruct o as [|status [data|]]; simpl; try reflexivity.
  - destruct (ok status); simpl; [discriminate | reflexivity].
  - destruct (ok status); reflexivity.
Qed.

(** ** Going back to the form *)

(** C5 (as amended). [handleBackToForm] shows the form page again and, in
    the same step, sets the stored estimate and the stored message to
    [null]; the form data and the loading flag are left alone. *)
Theorem handleBackToForm_clears (s : App.State) :
  App.handleBackToForm s
  = App.mkState (App.formData s) (App.isLoading s) JNull None false
  /\ App.screen (App.handleBackToForm s) = FormScreen.
Proof. split; reflexivity. Qed.

(** C5 (as stated) fails on the results page of a successful submission:
    the back button is offered there, and pressing it replaces the stored
    estimate by [null]. *)
Lemma handleBackToForm_alters_estimate :
  App.backOffered (App.ui resultsWorld) = true
  /\ App.estimate (App.ui resultsWorld) = sampleEstimate
  /\ App.estimate (App.handleBackToForm (App.ui resultsWorld)) = JNull
  /\ App.estimate (App.handleBackToForm (App.ui resultsWorld))
     <> App.estimate (App.ui resultsWorld).
Proof.
  repeat split. intros H. discriminate H.
Qed.

(** ** Settling of the request *)

Example summaryOnly_shape : is_CostEstimate summaryOnly = false.
Proof. vm_compute. reflexivity. Qed.

(** C1 (as stated) fails for a status-200 reply whose document lacks
    [serviceDetails]: the document becomes the stored estimate, no message
    is stored, and the results page is shown. *)
Lemma missing_key_not_rejected :
  ok 200 = true
  /\ is_CostEstimate (App.estimateData summaryOnly) = false
  /\ App.ui
       (App.handleSubmit_settle (Responded 200 (Some summaryOnly))
          submittedWorld)
     = App.mkState formA false summaryOnly None true
  /\ ~ App.Failed
         (App.ui
            (App.handleSubmit_settle (Responded 200 (Some summaryOnly))
               submittedWorld))
  /\ App.estimate
       (App.ui
          (App.handleSubmit_settle (Responded 200 (Some summaryOnly))
             submittedWorld))
     <> App.estimate (App.ui submittedWorld).
Proof.
  repeat split.
  - intros [_ H]. discriminate H.
  - intros H. discriminate H.
Qed.

(** The empty array is unwrapped to [undefined], which becomes the stored
    estimate; the results page then offers neither button. *)
Lemma empty_array_not_rejected :
  App.ui
    (App.handleSubmit_settle (Responded 200 (Some (JArr []))) submittedWorld)
  = App.mkState formA false JUndefined None true
  /\ App.backOffered (App.mkState formA false JUndefined None true) = false
  /\ App.retryOffered (App.mkState formA false JUndefined None true) = false.
Proof. repeat split. Qed.

(** C4 (as amended). When the call resolves with a non-success status the
    handler ends in [Failed] with the generic message; the stored estimate
    and the screen are both what they were before: the form page for a
    submission from the form, the results page for a retry. *)
Theorem settle_non_success (status : Z) (body : option JSVal)
  (w : App.World) :
  ok status = false ->
  App.Failed (App.ui (App.handleSubmit_settle (Responded status body) w))
  /\ App.estimate (App.ui (App.handleSubmit_settle (Responded status body) w))
     = App.estimate (App.ui w)
  /\ App.screen (App.ui (App.handleSubmit_settle (Responded status body) w))
     = App.screen (App.ui w).
Proof.
  intros Hok. unfold App.handleSubmit_settle. rewrite Hok. repeat split.
Qed.

Lemma settle_non_success_witness :
  App.Failed
    (App.ui (App.handleSubmit_settle (Responded 500 None) submittedWorld))
  /\ App.estimate
       (App.ui (App.handleSubmit_settle (Responded 500 None) submittedWorld))
     = JNull
  /\ App.screen
       (App.ui (App.handleSubmit_settle (Responded 500 None) submittedWorld))
     = FormScreen.
Proof.
  apply (settle_non_success 500 None submittedWorld). reflexivity.
Defined.

(** C4 (as stated) fails when the failing call is a retry: the component
    stays on the results page. *)
Lemma retry_failure_stays_on_results :
  App.retryOffered (App.ui resultsWorld) = true
  /\ App.outstanding retryingWorld = 1%nat
  /\ ok 500 = false
  /\ App.screen
       (App.ui (App.step retryingWorld (App.FetchSettles (Responded 500 None))))
     = ResultsScreen
  /\ App.screen
       (App.ui (App.step retryingWorld (App.FetchSettles (Responded 500 None))))
     <> FormScreen.
Proof.
  repeat split. intros H. discriminate H.
Qed.

(** ** Retrying *)

(** C2 (as amended). [handleRetry] issues one request whose payload is
    derived from the form data of the moment of the retry; no earlier
    payload is remembered.  It is the payload of an earlier submission
    whenever the form data are what they were at that submission. *)
Theorem handleRetry_payload (w : App.World) :
  App.requests (App.handleRetry w)
  = (App.requests w ++ [App.requestData (App.formData (App.ui w))])%list
  /\ (App.retryOffered (App.ui w) = true ->
      App.requests (App.step w App.ClickRetry)
      = (App.requests w ++ [App.requestData (App.formData (App.ui w))])%list)
  /\ (forall w0 : App.World,
        App.formData (App.ui w) = App.formData (App.ui w0) ->
        last (App.requests (App.handleRetry w))
        = last (App.requests (App.handleSubmit_begin w0))).
Proof.
  split; [reflexivity|]. split.
  - intros Hoff. simpl. rewrite Hoff. reflexivity.
  - intros w0 Hfd. unfold App.handleRetry, App.handleSubmit_begin. simpl.
    rewrite !last_snoc, Hfd. reflexivity.
Qed.

Lemma handleRetry_payload_witness :
  App.requests (App.step resultsWorld App.ClickRetry)
  = (App.requests resultsWorld
     ++ [App.requestData (App.formData (App.ui resultsWorld))])%list
  /\ last (App.requests (App.handleRetry resultsWorld))
     = last (App.requests
               (App.handleSubmit_begin (App.run App.initialWorld fillForm))).
Proof.
  split.
  - apply (proj1 (proj2 (handleRetry_payload resultsWorld))). reflexivity.
  - apply (proj2 (proj2 (handleRetry_payload resultsWorld))). reflexivity.
Defined.

(** C2 (as stated) fails when a field is changed while the first request
    is in flight: the retry sends the changed number of calls, not the
    payload of the submission. *)
Lemma retry_sends_current_form :
  App.requests editedRetryWorld
  = [App.requestData formA; App.requestData formA99]
  /\ App.requestData formA99 <> App.requestData formA.
Proof.
  split; [reflexivity|].
  intros H. apply (f_equal (prop "callsPerDay")) in H.
  vm_compute in H. discriminate H.
Qed.

(** ** One request at a time *)

Lemma step_single_flight (w : App.World) (e : App.Event) :
  single_flight w -> single_flight (App.step w e).
Proof.
  unfold single_flight.
  destruct w as [[fd l est err sr] reqs n]. simpl. intros Hinv.
  destruct e as [f v| | | |o]; simpl.
  - unfold App.inputsOffered; simpl. destruct sr; simpl; exact Hinv.
  - unfold App.submitOffered, App.submitDisabled; simpl.
    destruct sr; simpl; [exact Hinv|].
    destruct (truthy (App.isFormValid fd)); simpl; [|exact Hinv].
    destruct l; simpl; [exact Hinv|]. rewrite Hinv. reflexivity.
  - unfold App.backOffered; simpl.
    destruct (sr && (truthy est || truthy_str err)); simpl; exact Hinv.
  - unfold App.retryOffered; simpl.
    destruct sr; simpl; [|exact Hinv].
    destruct (truthy est); simpl; [|exact Hinv].
    destruct l; simpl; [exact Hinv|]. rewrite Hinv. reflexivity.
  - destruct n as [|n]; [exact Hinv|].
    destruct l; [|discriminate Hinv]. injection Hinv as ->.
    unfold App.handleSubmit_settle; simpl.
    destruct o as [|status [data|]]; simpl; try reflexivity;
      destruct (ok status); reflexivity.
Qed.

Lemma run_single_flight (es : list App.Event) (w : App.World) :
  single_flight w -> single_flight (App.run w es).
Proof.
  revert w. induction es as [|e es IH]; intros w Hinv; simpl.
  - exact Hinv.
  - apply IH. apply step_single_flight. exact Hinv.
Qed.

Lemma reachable_single_flight (es : list App.Event) :
  single_flight (App.run App.initialWorld es).
Proof. apply run_single_flight. reflexivity. Qed.

(** C3. While [isLoading] is set the submit button is disabled, so a
    submission of the form changes nothing: no request is added and the
    component keeps loading.  The retry button is disabled as well, and
    along every run of the component at most one request is in flight. *)
Theorem submit_while_loading (w : App.World) :
  App.isLoading (App.ui w) = true ->
  App.step w App.SubmitForm = w
  /\ App.requests (App.step w App.SubmitForm) = App.requests w
  /\ App.isLoading (App.ui (App.step w App.SubmitForm)) = true
  /\ App.step w App.ClickRetry = w
  /\ (forall es : list App.Event,
        (App.outstanding (App.run App.initialWorld es) <= 1)%nat).
Proof.
  intros Hl.
  assert (Hs : App.step w App.SubmitForm = w).
  { simpl. unfold App.submitOffered, App.submitDisabled. rewrite Hl.
    rewrite orb_true_r, andb_false_r. reflexivity. }
  rewrite Hs. repeat split; try assumption.
  - simpl. unfold App.retryOffered. rewrite Hl, andb_false_r. reflexivity.
  - intros es. pose proof (reachable_single_flight es) as Hinv.
    unfold single_flight in Hinv. rewrite Hinv.
    destruct (App.isLoading (App.ui (App.run App.initialWorld es))); lia.
Qed.

Lemma submit_while_loading_witness :
  App.step submittedWorld App.SubmitForm = submittedWorld
  /\ App.requests (App.step submittedWorld App.SubmitForm)
     = App.requests submittedWorld
  /\ App.isLoading (App.ui (App.step submittedWorld App.SubmitForm)) = true
  /\ App.step submittedWorld App.ClickRetry = submittedWorld
  /\ (forall es : list App.Event,
        (App.outstanding (App.run App.initialWorld es) <= 1)%nat).
Proof. apply (submit_while_loading submittedWorld). reflexivity. Defined.

(** The handler itself does not look at [isLoading]: what keeps a second
    request from being issued is the [disabled] attribute of the two
    buttons. *)
Lemma handleSubmit_begin_unguarded (w : App.World) :
  App.requests (App.handleSubmit_begin w)
  = (App.requests w ++ [App.requestData (App.formData (App.ui w))])%list
  /\ App.outstanding (App.handleSubmit_begin w) = S (App.outstanding w).
Proof. split; reflexivity. Qed.

(** ** The stored message *)

Lemma step_message_inv (w : App.World) (e : App.Event) :
  message_inv w -> message_inv (App.step w e).
Proof.
  unfold message_inv.
  destruct w as [[fd l est err sr] reqs n]. simpl. intros [Hl Hm].
  destruct e as [f v| | | |o]; simpl.
  - destruct (App.inputsOffered _); simpl; split; assumption.
  - destruct (App.submitOffered _); simpl; [|split; assumption].
    split; [reflexivity | left; reflexivity].
  - destruct (App.backOffered _); simpl; [|split; assumption].
    split; [reflexivity | left; reflexivity].
  - destruct (App.retryOffered _); simpl; [|split; assumption].
    split; [reflexivity | left; reflexivity].
  - destruct n as [|n]; simpl; [split; assumption|].
    destruct o as [|status [data|]]; simpl;
      try destruct (ok status); simpl;
      (split; [discriminate | first [right; reflexivity | exact Hm]]).
Qed.

Lemma run_message_inv (es : list App.Event) (w : App.World) :
  message_inv w -> message_inv (App.run w es).
Proof.
  revert w. induction es as [|e es IH]; intros w Hinv; simpl.
  - exact Hinv.
  - apply IH. apply step_message_inv. exact Hinv.
Qed.

Lemma reachable_message_inv (es : list App.Event) :
  message_inv (App.run App.initialWorld es).
Proof.
  apply run_message_inv. split; [reflexivity | left; reflexivity].
Qed.

(** C10. The submit handler sets the message to [null] before the request
    is issued.  Along every run of the component the message is [null]
    while loading; a stored message means that the component is in
    [Failed]; and when a pending request settles with a success status and
    a decodable body, the message is [null] afterwards. *)
Theorem message_only_when_failed (es : list App.Event) :
  (forall w : App.World, App.error (App.ui (App.handleSubmit_begin w)) = None)
  /\ (App.isLoading (App.ui (App.run App.initialWorld es)) = true ->
      App.error (App.ui (App.run App.initialWorld es)) = None)
  /\ (App.error (App.ui (App.run App.initialWorld es)) <> None ->
      App.Failed (App.ui (App.run App.initialWorld es)))
  /\ (forall (status : Z) (data : JSVal),
        ok status = true ->
        (0 < App.outstanding (App.run App.initialWorld es))%nat ->
        App.error
          (App.ui
             (App.run App.initialWorld
                (es ++ [App.FetchSettles (Responded status (Some data))])))
        = None).
Proof.
  pose proof (reachable_message_inv es) as [Hl Hm].
  pose proof (reachable_single_flight es) as Hs. unfold single_flight in Hs.
  repeat match goal with |- _ /\ _ => split end.
  - reflexivity.
  - exact Hl.
  - intros Hne. destruct Hm as [Hm|Hm]; [contradiction|].
    split; [|exact Hm].
    destruct (App.isLoading (App.ui (App.run App.initialWorld es))) eqn:E;
      [|reflexivity].
    rewrite (Hl eq_refl) in Hm. discriminate Hm.
  - intros status data Hok Hout.
    unfold App.run. rewrite fold_left_app. fold (App.run App.initialWorld es).
    simpl.
    destruct (App.outstanding (App.run App.initialWorld es)) as [|n] eqn:En;
      [lia|].
    destruct (App.isLoading (App.ui (App.run App.initialWorld es))) eqn:E;
      [|discriminate Hs].
    unfold App.handleSubmit_settle. rewrite Hok. simpl. apply Hl. reflexivity.
Qed.

Lemma message_only_when_failed_witness :
  App.error (App.ui (App.run App.initialWorld (fillForm ++ [App.SubmitForm])))
  = None
  /\ App.Failed
       (App.ui
          (App.run App.initialWorld
             (fillForm ++
              [App.SubmitForm; App.FetchSettles (Responded 500 None)])))
  /\ App.error
       (App.ui
          (App.run App.initialWorld
             ((fillForm ++ [App.SubmitForm]) ++
              [App.FetchSettles (Responded 200 (Some sampleEstimate))])))
     = None.
Proof.
  split; [|split].
  - apply (proj1 (proj2
      (message_only_when_failed (fillForm ++ [App.SubmitForm])))).
    reflexivity.
  - apply (proj1 (proj2 (proj2
      (message_only_when_failed
         (fillForm ++
          [App.SubmitForm; App.FetchSettles (Responded 500 None)]))))).
    discriminate.
  - apply (proj2 (proj2 (proj2
      (message_only_when_failed (fillForm ++ [App.SubmitForm]))))).
    + reflexivity.
    + simpl. lia.
Defined.

(** * Further properties of the two components *)

(** ** Reading the estimate without a throw *)

Lemma props_undefined (ks : list string) : props ks JUndefined = JUndefined.
Proof. induction ks as [|k ks IH]; [reflexivity | exact IH]. Qed.

Lemma prop_nullish (k : string) (v : JSVal) :
  nullish v = true -> prop k v = JUndefined.
Proof. destruct v; try discriminate; reflexivity. Qed.

Lemma holeOK_fixed (e : JSVal) (ks : list string) (d : nat) :
  holeOK e (HFixed ks d) = is_number (props ks e).
Proof.
  unfold holeOK. simpl. revert e. induction ks as [|k ks IH]; intros e; simpl.
  - destruct e; reflexivity.
  - unfold member. destruct (nullish e) eqn:En.
    + rewrite (prop_nullish k e En), props_undefined. reflexivity.
    + apply IH.
Qed.

Lemma holeOK_value (e : JSVal) (ks : list string) (k : string) :
  holeOK e (HValue (ks ++ [k])) = negb (nullish (props ks e)).
Proof.
  unfold holeOK. simpl. revert e. induction ks as [|a ks IH]; intros e; simpl.
  - unfold member. destruct (nullish e); reflexivity.
  - unfold member at 1. destruct (nullish e) eqn:En.
    + rewrite (prop_nullish a e En), props_undefined. reflexivity.
    + apply IH.
Qed.

Lemma mapM_holeOK (e : JSVal) (hs : list Hole) :
  is_Some (mapM (evalHole e) hs) <-> forallb (holeOK e) hs = true.
Proof.
  rewrite mapM_is_Some, forallb_forall, Forall_forall.
  split; intros H h Hin.
  - apply list_elem_of_In in Hin. specialize (H h Hin). unfold holeOK.
    destruct H as [c ->]. reflexivity.
  - apply list_elem_of_In in Hin. specialize (H h Hin). unfold holeOK in H.
    simpl. destruct (evalHole e h); [eexists; reflexivity | discriminate].
Qed.

Lemma slotOK_plain (e : JSVal) (h : Hole) : slotOK e (Plain h) = holeOK e h.
Proof. unfold slotOK, holeOK. simpl. destruct (evalHole e h); reflexivity. Qed.

Lemma slotOK_guarded (e : JSVal) (k : string) (inner : list Hole) :
  slotOK e (Guarded [k] inner)
  = negb (nullish e)
    && (negb (truthy (prop k e)) || forallb (holeOK e) inner).
Proof.
  unfold slotOK. simpl. unfold member. destruct (nullish e); [reflexivity|].
  simpl. destruct (truthy (prop k e)); [|reflexivity]. simpl.
  destruct (forallb (holeOK e) inner) eqn:E.
  - apply mapM_holeOK in E. destruct E as [cs ->]. reflexivity.
  - destruct (mapM (evalHole e) inner) eqn:M; [|reflexivity].
    assert (forallb (holeOK e) inner = true) as E'
      by (apply mapM_holeOK; eexists; exact M).
    rewrite E' in E. discriminate.
Qed.

Lemma evalSlots_slotOK (e : JSVal) (ss : list Slot) :
  is_Some (evalSlots e ss) <-> forallb (slotOK e) ss = true.
Proof.
  unfold evalSlots. rewrite forallb_forall. split.
  - intros [cs H] s Hin. destruct (mapM (evalSlot e) ss) as [css|] eqn:M;
      [|discriminate].
    assert (Forall (is_Some ∘ evalSlot e) ss) as HF
      by (apply mapM_is_Some; eexists; exact M).
    rewrite Forall_forall in HF. apply list_elem_of_In in Hin.
    destruct (HF s Hin) as [c Hc]. unfold slotOK. rewrite Hc. reflexivity.
  - intros H.
    assert (is_Some (mapM (evalSlot e) ss)) as [css ->].
    { apply mapM_is_Some, Forall_forall. intros s Hin.
      apply list_elem_of_In in Hin. specialize (H s Hin). unfold slotOK in H.
      simpl. destruct (evalSlot e s); [eexists; reflexivity | discriminate]. }
    eexists. reflexivity.
Qed.

Lemma has_prop (k : string) (p : JSVal -> bool) (v : JSVal) :
  p JUndefined = false -> has k p v = p (prop k v).
Proof.
  intros Hp. destruct v; simpl; try (symmetry; exact Hp).
  destruct (fields !! k); [reflexivity | symmetry; exact Hp].
Qed.

Lemma forallb_pointwise {A : Type} (f g : A -> bool) (l : list A) :
  (forall x, f x = g x) -> forallb f l = forallb g l.
Proof.
  intros H. induction l as [|x l IH]; [reflexivity|].
  simpl. rewrite H, IH. reflexivity.
Qed.

Lemma is_range_props (x : JSVal) :
  is_range x = forallb (fun f => is_number (props [f] x)) rangeFields.
Proof.
  unfold is_range. rewrite !has_prop by reflexivity. simpl.
  rewrite andb_true_r, andb_assoc. reflexivity.
Qed.

Lemma is_costSummary_props (v : JSVal) :
  is_costSummary v
  = forallb (fun k => forallb (fun f => is_number (props [k; f] v)) rangeFields)
      costSummary_keys.
Proof.
  unfold is_costSummary. apply forallb_pointwise. intros k.
  rewrite has_prop by reflexivity. apply is_range_props.
Qed.

Lemma has_costSummary_props (e : JSVal) :
  has "costSummary" is_costSummary e
  = forallb
      (fun k => forallb
         (fun f => is_number (props ["costSummary"; k; f] e)) rangeFields)
      costSummary_keys.
Proof. rewrite has_prop by reflexivity. apply is_costSummary_props. Qed.

Lemma truthy_not_nullish (v : JSVal) : truthy v = true -> nullish v = false.
Proof. destruct v; simpl; congruence. Qed.

Lemma prop_defined_object (k : string) (v : JSVal) :
  nullish (prop k v) = false -> truthy v = true.
Proof. destruct v; simpl; try discriminate. reflexivity. Qed.

Lemma is_number_prop_object (k : string) (v : JSVal) :
  is_number (prop k v) = true -> nullish v = false.
Proof. destruct v; simpl; try discriminate; reflexivity. Qed.

Lemma holeOK_value3 (e : JSVal) (a b c : string) :
  holeOK e (HValue [a; b; c]) = negb (nullish (props [a; b] e)).
Proof. exact (holeOK_value e [a; b] c). Qed.

Lemma holeOK_value2 (e : JSVal) (a b : string) :
  holeOK e (HValue [a; b]) = negb (nullish (props [a] e)).
Proof. exact (holeOK_value e [a] b). Qed.

Lemma number_at_root (a b c : string) (e : JSVal) :
  is_number (props [a; b; c] e) = true -> nullish e = false.
Proof.
  simpl. intros H. apply is_number_prop_object in H.
  apply prop_defined_object, truthy_not_nullish in H.
  apply prop_defined_object, truthy_not_nullish in H. exact H.
Qed.

Lemma truthy_or_defined (v : JSVal) : truthy v = false \/ nullish v = false.
Proof. destruct v; simpl; auto. Qed.

Lemma App_slots_exact (fd : FormData) (e : JSVal) :
  is_Some (evalSlots e (App.estimateSlots fd))
  <-> has "costSummary" is_costSummary e = true
      /\ Forall (fun s => nullish (props ["serviceDetails"; s] e) = false)
           serviceNames.
Proof.
  rewrite evalSlots_slotOK, has_costSummary_props.
  unfold App.estimateSlots, costSummary_keys, rangeFields, serviceNames.
  cbn [forallb].
  rewrite !slotOK_plain, !slotOK_guarded. cbn [forallb].
  rewrite !holeOK_fixed, !holeOK_value3, !holeOK_value2.
  rewrite !Forall_cons, Forall_nil. simpl (holeOK _ (HLit _)).
  pose proof (number_at_root "costSummary" "totalMonthlyCostRange" "min" e)
    as Hroot.
  cbn [props] in *.
  pose proof (prop_defined_object "llm" (prop "serviceDetails" e)) as Hsd.
  pose proof (truthy_or_defined (prop "recommendations" e)) as Hrec.
  split; intros H.
  - break_andb. specialize (Hsd ltac:(assumption)).
    rewrite Hsd in *. simpl in *. break_andb.
    build_andb; solve [assumption | reflexivity].
  - break_andb. specialize (Hsd ltac:(assumption)).
    specialize (Hroot ltac:(assumption)).
    rewrite Hsd, Hroot. simpl.
    build_andb; try solve [assumption | reflexivity].
    destruct Hrec as [Hrec|Hrec]; rewrite Hrec; simpl;
      rewrite ?orb_true_r; reflexivity.
Qed.

Lemma App_fixed_slots_exact (e : JSVal) :
  is_Some (evalSlots e App_fixed.estimateSlots)
  <-> has "costSummary" is_costSummary e = true
      /\ (truthy (prop "serviceDetails" e) = true ->
          Forall (fun s => nullish (props ["serviceDetails"; s] e) = false)
            serviceNames).
Proof.
  rewrite evalSlots_slotOK, has_costSummary_props.
  unfold App_fixed.estimateSlots, costSummary_keys, rangeFields, serviceNames.
  cbn [forallb].
  rewrite !slotOK_plain, !slotOK_guarded. cbn [forallb].
  rewrite !holeOK_fixed, !holeOK_value3, !holeOK_value2.
  rewrite !Forall_cons, Forall_nil.
  pose proof (number_at_root "costSummary" "totalMonthlyCostRange" "min" e)
    as Hroot.
  cbn [props] in *.
  pose proof (truthy_or_defined (prop "recommendations" e)) as Hrec.
  split; intros H.
  - break_andb. split.
    + build_andb; solve [assumption | reflexivity].
    + intros Hsd. rewrite Hsd in *. simpl in *. break_andb.
      build_andb; solve [assumption | reflexivity].
  - destruct H as [H Hs]. break_andb. specialize (Hroot ltac:(assumption)).
    rewrite Hroot. simpl.
    build_andb; try solve [assumption | reflexivity].
    + destruct (truthy (prop "serviceDetails" e)); [|reflexivity].
      specialize (Hs eq_refl). break_andb. simpl.
      build_andb; solve [assumption | reflexivity].
    + destruct Hrec as [Hrec|Hrec]; rewrite Hrec; simpl;
        rewrite ?orb_true_r; reflexivity.
Qed.

Lemma path_props (ks : list string) (e v : JSVal) :
  path ks e = Some v -> v = props ks e.
Proof.
  revert e. induction ks as [|k ks IH]; intros e; simpl.
  - congruence.
  - unfold member. destruct (nullish e); [discriminate|]. apply IH.
Qed.

Lemma evalHole_primitive (e : JSVal) (h : Hole) (c : Child) :
  evalHole e h = Some c -> holePrimitive e h = true -> primitive c = true.
Proof.
  destruct h as [ks d|ks|v]; simpl.
  - destruct (path ks e) as [[]|]; try discriminate.
    intros [= <-] _. reflexivity.
  - destruct (path ks e) as [v|] eqn:Hp; [|discriminate].
    intros [= <-]. rewrite (path_props ks e v Hp). trivial.
  - intros [= <-]. trivial.
Qed.

Lemma mapM_evalHole_primitive (e : JSVal) (hs : list Hole) (cs : list Child) :
  mapM (evalHole e) hs = Some cs ->
  forallb (holePrimitive e) hs = true -> forallb primitive cs = true.
Proof.
  intros HM. apply mapM_Some_1 in HM.
  induction HM as [|h c hs cs Hh _ IH]; [reflexivity|].
  simpl. intros Hp. apply andb_prop in Hp as [Hp1 Hp2].
  rewrite (evalHole_primitive e h c Hh Hp1). apply IH, Hp2.
Qed.

Lemma evalSlot_primitive (e : JSVal) (s : Slot) (cs : list Child) :
  evalSlot e s = Some cs -> slotPrimitive e s = true ->
  forallb primitive cs = true.
Proof.
  destruct s as [h|ks inner]; simpl.
  - destruct (evalHole e h) as [c|] eqn:Hh; [|discriminate].
    intros [= <-] Hp. simpl. rewrite (evalHole_primitive e h c Hh Hp).
    reflexivity.
  - destruct (path ks e) as [g|] eqn:Hg; [|discriminate].
    rewrite <- (path_props ks e g Hg).
    destruct (truthy g).
    + apply mapM_evalHole_primitive.
    + intros [= <-] Hp. simpl. rewrite Hp. reflexivity.
Qed.

Lemma forallb_app_true {A : Type} (f : A -> bool) (l1 l2 : list A) :
  forallb f l1 = true -> forallb f l2 = true -> forallb f (l1 ++ l2) = true.
Proof.
  intros H1 H2. rewrite forallb_app, H1, H2. reflexivity.
Qed.

Lemma evalSlots_primitive (e : JSVal) (ss : list Slot) (cs : list Child) :
  evalSlots e ss = Some cs ->
  forallb (slotPrimitive e) ss = true -> forallb primitive cs = true.
Proof.
  unfold evalSlots. destruct (mapM (evalSlot e) ss) as [css|] eqn:HM;
    [|discriminate].
  intros [= <-]. apply mapM_Some_1 in HM.
  induction HM as [|s c's ss css Hs _ IH]; [reflexivity|].
  simpl. intros Hp. apply andb_prop in Hp as [Hp1 Hp2].
  apply forallb_app_true; [exact (evalSlot_primitive e s c's Hs Hp1)|].
  apply IH, Hp2.
Qed.

Lemma is_string_primitive (v : JSVal) :
  is_string v = true -> primitiveValue v = true.
Proof. destruct v; simpl; congruence. Qed.

Lemma has_opt_prop (k : string) (p : JSVal -> bool) (v : JSVal) :
  has_opt k p v = true -> prop k v = JUndefined \/ p (prop k v) = true.
Proof.
  destruct v; simpl; try discriminate.
  destruct (fields !! k) as [x|]; simpl; [|left; reflexivity].
  destruct x; auto.
Qed.

(** What the declared shape says about the values the markup reads. *)
Lemma is_CostEstimate_values (e : JSVal) :
  is_CostEstimate e = true ->
  has "costSummary" is_costSummary e = true
  /\ Forall (fun s => is_string (props ["serviceDetails"; s; "provider"] e)
                      = true) serviceNames
  /\ Forall (fun s => is_string (props ["serviceDetails"; s; "model"] e)
                      = true) ["llm"; "stt"; "tts"]
  /\ is_string (props ["serviceDetails"; "server"; "instanceType"] e) = true
  /\ (prop "recommendations" e = JUndefined
      \/ is_recommendations (prop "recommendations" e) = true).
Proof.
  unfold is_CostEstimate. intros H. break_andb.
  split; [assumption|].
  match goal with H : has_opt _ _ _ = true |- _ =>
    apply has_opt_prop in H; rename H into Hrec end.
  match goal with H : has "serviceDetails" _ _ = true |- _ =>
    rewrite has_prop in H by reflexivity; unfold is_serviceDetails in H;
    rewrite !has_prop in H by reflexivity;
    unfold is_modelService, is_twilioService, is_serverService in H;
    rewrite !has_prop in H by reflexivity end.
  break_andb. unfold serviceNames. rewrite !Forall_cons, !Forall_nil.
  cbn [props]. repeat split; assumption.
Qed.

Lemma is_string_prop_object (k : string) (v : JSVal) :
  is_string (prop k v) = true -> nullish v = false.
Proof. destruct v; simpl; try discriminate; reflexivity. Qed.

Lemma services_defined (e : JSVal) :
  Forall (fun s => is_string (props ["serviceDetails"; s; "provider"] e)
                   = true) serviceNames ->
  Forall (fun s => nullish (props ["serviceDetails"; s] e) = false)
    serviceNames.
Proof.
  intros H. eapply Forall_impl; [exact H|].
  intros s. cbn [props]. apply is_string_prop_object.
Qed.

Lemma is_recommendations_values (r : JSVal) :
  is_recommendations r = true ->
  truthy r = true
  /\ is_string (prop "bestValueLLM" r) = true
  /\ is_string (prop "bestQualityLLM" r) = true.
Proof.
  unfold is_recommendations. rewrite !has_prop by reflexivity.
  intros H. break_andb. repeat split; try assumption.
  match goal with H : is_string (prop "bestValueLLM" r) = true |- _ =>
    apply is_string_prop_object in H end.
  destruct r; simpl in *; congruence.
Qed.

Lemma guard_recommendations_primitive (e : JSVal) :
  prop "recommendations" e = JUndefined
  \/ is_recommendations (prop "recommendations" e) = true ->
  slotPrimitive e
    (Guarded ["recommendations"]
       [ HValue ["recommendations"; "bestValueLLM"];
         HValue ["recommendations"; "bestQualityLLM"] ]) = true.
Proof.
  cbn [slotPrimitive props forallb holePrimitive].
  intros [->|H]; [reflexivity|].
  apply is_recommendations_values in H as (-> & H1 & H2).
  rewrite (is_string_primitive _ H1), (is_string_primitive _ H2). reflexivity.
Qed.

Lemma guard_serviceDetails_primitive (e : JSVal) :
  Forall (fun s => is_string (props ["serviceDetails"; s; "provider"] e)
                   = true) serviceNames ->
  Forall (fun s => is_string (props ["serviceDetails"; s; "model"] e)
                   = true) ["llm"; "stt"; "tts"] ->
  is_string (props ["serviceDetails"; "server"; "instanceType"] e) = true ->
  slotPrimitive e
    (Guarded ["serviceDetails"]
       [ HValue ["serviceDetails"; "llm"; "model"];
         HValue ["serviceDetails"; "llm"; "provider"];
         HValue ["serviceDetails"; "stt"; "model"];
         HValue ["serviceDetails"; "stt"; "provider"];
         HValue ["serviceDetails"; "tts"; "model"];
         HValue ["serviceDetails"; "tts"; "provider"];
         HValue ["serviceDetails"; "twilio"; "provider"];
         HValue ["serviceDetails"; "server"; "instanceType"];
         HValue ["serviceDetails"; "server"; "provider"] ]) = true.
Proof.
  unfold serviceNames. rewrite !Forall_cons, !Forall_nil.
  cbn [slotPrimitive props forallb holePrimitive]. intros Hp Hm Hi.
  break_andb.
  assert (truthy (prop "serviceDetails" e) = true) as ->.
  { apply (prop_defined_object "llm").
    apply (is_string_prop_object "provider"). assumption. }
  build_andb; solve [apply is_string_primitive; assumption | reflexivity].
Qed.

Lemma App_slots_primitive (fd : FormData) (e : JSVal) :
  is_CostEstimate e = true ->
  forallb (slotPrimitive e) (App.estimateSlots fd) = true.
Proof.
  intros H. apply is_CostEstimate_values in H as (_ & Hp & Hm & Hi & Hr).
  pose proof (guard_serviceDetails_primitive e Hp Hm Hi) as Hg1.
  pose proof (guard_recommendations_primitive e Hr) as Hg2.
  unfold App.estimateSlots. cbn [forallb]. rewrite Hg1, Hg2.
  unfold serviceNames in Hp. rewrite !Forall_cons in Hp.
  cbn [slotPrimitive holePrimitive]. break_andb.
  build_andb; solve [apply is_string_primitive; assumption | reflexivity].
Qed.

Lemma App_fixed_slots_primitive (e : JSVal) :
  is_CostEstimate e = true ->
  forallb (slotPrimitive e) App_fixed.estimateSlots = true.
Proof.
  intros H. apply is_CostEstimate_values in H as (_ & Hp & Hm & Hi & Hr).
  pose proof (guard_serviceDetails_primitive e Hp Hm Hi) as Hg1.
  pose proof (guard_recommendations_primitive e Hr) as Hg2.
  unfold App_fixed.estimateSlots. cbn [forallb]. rewrite Hg1, Hg2.
  reflexivity.
Qed.

Lemma is_CostEstimate_truthy (e : JSVal) :
  is_CostEstimate e = true -> truthy e = true.
Proof. destruct e; try (unfold is_CostEstimate; simpl; discriminate). reflexivity. Qed.

(** X1. On the results page of the two-screen component, an estimate of
    the declared shape makes every expression of the results markup
    evaluate: the estimate page is rendered, and every value put between
    the tags is a string, a formatted number or nothing, never an object
    or an array. *)
Theorem App_renders_declared_shape (s : App.State) :
  App.showResults s = true ->
  is_CostEstimate (App.estimate s) = true ->
  exists cs : list Child,
    App.render s = Some (App.EstimatePage cs (App.isLoading s))
    /\ forallb primitive cs = true.
Proof.
  intros Hshow Hshape. unfold App.render.
  rewrite Hshow, (is_CostEstimate_truthy _ Hshape). simpl.
  pose proof (is_CostEstimate_values _ Hshape) as (Hcs & Hp & _).
  destruct (proj2 (App_slots_exact (App.formData s) (App.estimate s))
              (conj Hcs (services_defined _ Hp))) as [cs Hcs'].
  rewrite Hcs'. exists cs. split; [reflexivity|].
  exact (evalSlots_primitive _ _ _ Hcs' (App_slots_primitive _ _ Hshape)).
Qed.

Lemma App_renders_declared_shape_witness :
  exists cs : list Child,
    App.render (App.ui resultsWorld)
    = Some (App.EstimatePage cs (App.isLoading (App.ui resultsWorld)))
    /\ forallb primitive cs = true.
Proof.
  apply (App_renders_declared_shape (App.ui resultsWorld));
    vm_compute; reflexivity.
Defined.

(** X2. In the split-pane component an estimate of the declared shape
    makes the results pane render, and every value put between the tags is
    a string, a formatted number or nothing. *)
Theorem App_fixed_renders_declared_shape (s : App_fixed.State) :
  is_CostEstimate (App_fixed.estimate s) = true ->
  exists cs : list Child,
    App_fixed.panel <$> App_fixed.render s = Some (Some cs)
    /\ forallb primitive cs = true.
Proof.
  intros Hshape. unfold App_fixed.render.
  rewrite (is_CostEstimate_truthy _ Hshape).
  pose proof (is_CostEstimate_values _ Hshape) as (Hcs & Hp & _).
  destruct (proj2 (App_fixed_slots_exact (App_fixed.estimate s))
              (conj Hcs (fun _ => services_defined _ Hp))) as [cs Hcs'].
  rewrite Hcs'. exists cs. split; [reflexivity|].
  exact (evalSlots_primitive _ _ _ Hcs' (App_fixed_slots_primitive _ Hshape)).
Qed.

Lemma App_fixed_renders_declared_shape_witness :
  exists cs : list Child,
    App_fixed.panel <$> App_fixed.render (erase (App.ui resultsWorld))
    = Some (Some cs)
    /\ forallb primitive cs = true.
Proof.
  apply (App_fixed_renders_declared_shape (erase (App.ui resultsWorld))).
  vm_compute. reflexivity.
Defined.

(** ** When the results markup evaluates *)

Lemma is_Some_match {A B : Type} (o : option A) (f : A -> B) :
  is_Some (match o with Some x => Some (f x) | None => None end) <-> is_Some o.
Proof. destruct o; split; intros [x H]; try discriminate; eexists; reflexivity. Qed.

(** X3. On the results page with a truthy estimate, the markup of the
    two-screen component evaluates without a throw exactly when
    [costSummary] holds all nine ranges with numeric [min], [max] and
    [avg], and the five records of [serviceDetails] are neither
    [undefined] nor [null]. *)
Theorem App_render_exact (s : App.State) :
  App.showResults s = true ->
  truthy (App.estimate s) = true ->
  (is_Some (App.render s)
   <-> has "costSummary" is_costSummary (App.estimate s) = true
       /\ Forall (fun k => nullish (props ["serviceDetails"; k] (App.estimate s))
                           = false) serviceNames).
Proof.
  intros Hshow Htruthy. unfold App.render. rewrite Hshow, Htruthy. simpl.
  rewrite is_Some_match. apply App_slots_exact.
Qed.

Lemma App_render_exact_witness :
  ~ is_Some
      (App.render (App.mkState formA false summaryOnly None true)).
Proof.
  intros H.
  apply (proj1 (App_render_exact
                  (App.mkState formA false summaryOnly None true)
                  eq_refl eq_refl)) in H.
  destruct H as [_ H]. apply Forall_cons in H as [H _]. discriminate H.
Defined.

(** X4. With a truthy estimate, the markup of the split-pane component
    evaluates without a throw exactly when [costSummary] holds all nine
    ranges with numeric [min], [max] and [avg], and, in case
    [serviceDetails] is truthy, its five records are neither [undefined]
    nor [null]. *)
Theorem App_fixed_render_exact (s : App_fixed.State) :
  truthy (App_fixed.estimate s) = true ->
  (is_Some (App_fixed.render s)
   <-> has "costSummary" is_costSummary (App_fixed.estimate s) = true
       /\ (truthy (prop "serviceDetails" (App_fixed.estimate s)) = true ->
           Forall (fun k => nullish (props ["serviceDetails"; k]
                                       (App_fixed.estimate s)) = false)
             serviceNames)).
Proof.
  intros Htruthy. unfold App_fixed.render. rewrite Htruthy.
  rewrite is_Some_match. apply App_fixed_slots_exact.
Qed.

Lemma App_fixed_render_exact_witness :
  is_Some (App_fixed.render (App_fixed.mkState formA false summaryOnly None)).
Proof.
  apply (proj2 (App_fixed_render_exact
                  (App_fixed.mkState formA false summaryOnly None) eq_refl)).
  split; [vm_compute; reflexivity|]. intros H. discriminate H.
Defined.

Lemma not_is_Some_None {A : Type} (o : option A) : ~ is_Some o -> o = None.
Proof. destruct o; [intros H; elim H; eexists; reflexivity | reflexivity]. Qed.

(** C1 (as amended). The handler ends in [Failed], with the stored
    estimate untouched, when the call is rejected, the status is
    non-success, or the body cannot be decoded.  A success-status reply
    whose decoded body is a record or a non-empty array is never turned
    down for its shape: the record, or element 0 of the array, becomes the
    stored estimate verbatim, whatever properties it has or lacks, the
    message is left as it was, and [showResults] is set, which makes the
    results screen the current view.  Whether that screen can be drawn is
    then decided by the markup alone: for a truthy stored value its
    expressions evaluate without a throw exactly when [costSummary] holds
    the nine ranges with numeric [min], [max] and [avg] and the five
    records of [serviceDetails] are neither [undefined] nor [null]. *)
Theorem settle_no_shape_check (o : FetchOutcome) (w : App.World) :
  (call_failed o = true ->
     App.Failed (App.ui (App.handleSubmit_settle o w))
     /\ App.estimate (App.ui (App.handleSubmit_settle o w))
        = App.estimate (App.ui w))
  /\ (forall (status : Z) (data doc : JSVal) (rest : list JSVal),
        o = Responded status (Some data) ->
        ok status = true ->
        data = JArr (doc :: rest) \/ (isArray data = false /\ data = doc) ->
        App.ui (App.handleSubmit_settle o w)
        = App.mkState (App.formData (App.ui w)) false doc
            (App.error (App.ui w)) true
        /\ App.screen (App.ui (App.handleSubmit_settle o w)) = ResultsScreen
        /\ (truthy doc = true ->
            (is_Some (App.render (App.ui (App.handleSubmit_settle o w)))
             <-> has "costSummary" is_costSummary doc = true
                 /\ Forall
                      (fun k => nullish (props ["serviceDetails"; k] doc)
                                = false) serviceNames))).
Proof.
  split.
  - intros Hc. rewrite (call_failed_catch o w Hc). repeat split.
  - intros status data doc rest -> Hok Hdata.
    assert (Hst : App.ui (App.handleSubmit_settle
                            (Responded status (Some data)) w)
                  = App.mkState (App.formData (App.ui w)) false doc
                      (App.error (App.ui w)) true).
    { unfold App.handleSubmit_settle. rewrite Hok. simpl.
      destruct Hdata as [->|[Hna ->]]; [reflexivity|].
      rewrite (estimateData_not_array doc Hna). reflexivity. }
    rewrite Hst. split; [reflexivity|]. split; [reflexivity|].
    intros Htruthy. unfold App.render. simpl. rewrite Htruthy.
    rewrite is_Some_match. apply App_slots_exact.
Qed.

Lemma settle_no_shape_check_witness :
  (App.Failed
     (App.ui (App.handleSubmit_settle (Responded 200 None) submittedWorld))
   /\ App.estimate
        (App.ui (App.handleSubmit_settle (Responded 200 None) submittedWorld))
      = App.estimate (App.ui submittedWorld))
  /\ App.ui
       (App.handleSubmit_settle (Responded 200 (Some (JArr [summaryOnly])))
          submittedWorld)
     = App.mkState (App.formData (App.ui submittedWorld)) false summaryOnly
         (App.error (App.ui submittedWorld)) true
  /\ App.screen
       (App.ui
          (App.handleSubmit_settle (Responded 200 (Some (JArr [summaryOnly])))
             submittedWorld))
     = ResultsScreen
  /\ ~ is_Some
        (App.render
           (App.ui
              (App.handleSubmit_settle
                 (Responded 200 (Some (JArr [summaryOnly]))) submittedWorld))).
Proof.
  split.
  - apply (proj1 (settle_no_shape_check (Responded 200 None) submittedWorld)).
    reflexivity.
  - destruct (proj2 (settle_no_shape_check
                       (Responded 200 (Some (JArr [summaryOnly])))
                       submittedWorld)
                200 (JArr [summaryOnly]) summaryOnly [] eq_refl eq_refl
                (or_introl eq_refl)) as (Hst & Hsc & Hr).
    split; [exact Hst|]. split; [exact Hsc|].
    intros H. apply (proj1 (Hr eq_refl)) in H. destruct H as [_ H].
    apply Forall_cons in H as [H _]. discriminate H.
Defined.

(** X5. A success-status reply whose unwrapped document is truthy but
    lacks a complete [costSummary] leaves either component in a state
    whose render throws. *)
Theorem reply_without_costSummary_breaks_render (status : Z) (data : JSVal) :
  ok status = true ->
  truthy (App.estimateData data) = true ->
  has "costSummary" is_costSummary (App.estimateData data) = false ->
  (forall w : App.World,
     App.render
       (App.ui (App.handleSubmit_settle (Responded status (Some data)) w))
     = None)
  /\ (forall w : App_fixed.World,
        App_fixed.render
          (App_fixed.ui
             (App_fixed.handleSubmit_settle (Responded status (Some data)) w))
        = None).
Proof.
  intros Hok Htruthy Hcs. split; intros w.
  - unfold App.handleSubmit_settle. rewrite Hok. simpl. unfold App.render.
    simpl. rewrite Htruthy.
    rewrite (not_is_Some_None (evalSlots (App.estimateData data) _));
      [reflexivity|].
    intros H. apply App_slots_exact in H as [H _]. congruence.
  - unfold App_fixed.handleSubmit_settle. rewrite Hok. simpl.
    unfold App_fixed.render. simpl.
    change (App_fixed.estimateData data) with (App.estimateData data).
    rewrite Htruthy.
    rewrite (not_is_Some_None (evalSlots (App.estimateData data) _));
      [reflexivity|].
    intros H. apply App_fixed_slots_exact in H as [H _]. congruence.
Qed.

Lemma reply_without_costSummary_breaks_render_witness :
  (forall w : App.World,
     App.render
       (App.ui (App.handleSubmit_settle
                  (Responded 200 (Some (JArr [JObj ∅]))) w))
     = None)
  /\ (forall w : App_fixed.World,
        App_fixed.render
          (App_fixed.ui
             (App_fixed.handleSubmit_settle
                (Responded 200 (Some (JArr [JObj ∅]))) w))
        = None).
Proof.
  apply (reply_without_costSummary_breaks_render 200 (JArr [JObj ∅]));
    reflexivity.
Defined.

Lemma falsy_primitive (v : JSVal) :
  truthy v = false -> primitiveValue v = true.
Proof. destruct v; simpl; try reflexivity; discriminate. Qed.

(** X6. The two components differ on an estimate with a complete
    [costSummary], a falsy [serviceDetails], and [recommendations] absent
    or of the declared shape: the two-screen component reads
    [serviceDetails.llm.provider] outside the
    [estimate.serviceDetails && ...] block and throws; the split-pane
    component reads it only inside the block, so its markup evaluates, and
    what it puts between the tags are strings, formatted numbers or
    nothing, never an object or an array. *)
Theorem missing_serviceDetails_diverges (e : JSVal) :
  has "costSummary" is_costSummary e = true ->
  truthy (prop "serviceDetails" e) = false ->
  has_opt "recommendations" is_recommendations e = true ->
  (forall s : App.State,
     App.showResults s = true -> App.estimate s = e -> App.render s = None)
  /\ (forall s : App_fixed.State,
        App_fixed.estimate s = e ->
        exists cs : list Child,
          App_fixed.panel <$> App_fixed.render s = Some (Some cs)
          /\ forallb primitive cs = true).
Proof.
  intros Hcs Hsd Hrec.
  assert (truthy e = true) as Ht.
  { destruct e; simpl in Hcs; try discriminate. reflexivity. }
  split.
  - intros s Hshow <-. unfold App.render. rewrite Hshow, Ht. simpl.
    rewrite (not_is_Some_None (evalSlots (App.estimate s) _)); [reflexivity|].
    intros H. apply App_slots_exact in H as [_ H].
    unfold serviceNames in H. rewrite Forall_cons in H. destruct H as [H _].
    cbn [props] in H. apply prop_defined_object in H. congruence.
  - intros s <-. unfold App_fixed.render. rewrite Ht.
    destruct (proj2 (App_fixed_slots_exact (App_fixed.estimate s)))
      as [cs Hev].
    { split; [exact Hcs|]. intros H. congruence. }
    rewrite Hev. exists cs. split; [reflexivity|].
    apply (evalSlots_primitive _ _ _ Hev).
    pose proof (guard_recommendations_primitive _ (has_opt_prop _ _ _ Hrec))
      as Hg.
    unfold App_fixed.estimateSlots. cbn [forallb]. rewrite Hg.
    cbn [slotPrimitive holePrimitive props]. rewrite Hsd.
    rewrite (falsy_primitive _ Hsd). reflexivity.
Qed.

Lemma missing_serviceDetails_diverges_witness :
  (forall s : App.State,
     App.showResults s = true -> App.estimate s = summaryOnly ->
     App.render s = None)
  /\ (forall s : App_fixed.State,
        App_fixed.estimate s = summaryOnly ->
        exists cs : list Child,
          App_fixed.panel <$> App_fixed.render s = Some (Some cs)
          /\ forallb primitive cs = true).
Proof.
  apply (missing_serviceDetails_diverges summaryOnly); reflexivity.
Defined.

(** ** The pages of the two-screen component *)

Lemma step_view_inv (w : App.World) (e : App.Event) :
  single_flight w -> message_inv w -> view_inv w -> view_inv (App.step w e).
Proof.
  unfold single_flight, message_inv, view_inv.
  destruct w as [[fd l est err sr] reqs n]. simpl. intros Hs [Hl Hm] Hv.
  destruct e as [f v| | | |o]; simpl.
  - unfold App.inputsOffered; simpl. destruct sr; simpl; [exact Hv|discriminate].
  - unfold App.submitOffered; simpl. destruct sr; simpl; [exact Hv|].
    destruct (negb (App.submitDisabled _)); simpl; discriminate.
  - destruct (App.backOffered _); simpl; [discriminate | exact Hv].
  - unfold App.retryOffered; simpl.
    destruct sr; simpl; [|exact Hv].
    destruct (truthy est) eqn:Et; simpl; [|rewrite Et; exact Hv].
    destruct l; simpl; [rewrite Et; exact Hv|]. intros _. left. exact Et.
  - destruct n as [|n]; [exact Hv|].
    destruct l; [|discriminate Hs].
    specialize (Hl eq_refl). subst err.
    unfold App.handleSubmit_settle; simpl.
    destruct o as [|status [data|]]; simpl;
      try destruct (ok status); simpl;
      try (intros Hsr; destruct (Hv Hsr) as [Ht|[Hf _]];
           [left; exact Ht | discriminate Hf]).
    intros _. destruct (truthy (App.estimateData data)); auto.
Qed.

Lemma run_invariants (es : list App.Event) (w : App.World) :
  single_flight w /\ message_inv w /\ view_inv w ->
  single_flight (App.run w es) /\ message_inv (App.run w es)
  /\ view_inv (App.run w es).
Proof.
  revert w. induction es as [|e es IH]; intros w (Hs & Hm & Hv); simpl.
  - auto.
  - apply IH. split; [|split].
    + apply step_single_flight, Hs.
    + apply step_message_inv, Hm.
    + apply step_view_inv; assumption.
Qed.

Lemma reachable_invariants (es : list App.Event) :
  single_flight (App.run App.initialWorld es)
  /\ message_inv (App.run App.initialWorld es)
  /\ view_inv (App.run App.initialWorld es).
Proof.
  apply run_invariants. split; [reflexivity|]. split.
  - split; [reflexivity | left; reflexivity].
  - intros H. discriminate H.
Qed.

(** X7. Along every run of the two-screen component the
    [error ? (...)] branch of the results page is never rendered: whenever
    a message is stored while the results page is shown, an estimate is on
    display, and the estimate branch is the one that is taken. *)
Theorem results_error_branch_dead (es : list App.Event) :
  (forall msg : option string,
     App.render (App.ui (App.run App.initialWorld es))
     <> Some (App.ErrorPage msg))
  /\ (truthy_str (App.error (App.ui (App.run App.initialWorld es))) = true ->
      App.showResults (App.ui (App.run App.initialWorld es)) = true ->
      truthy (App.estimate (App.ui (App.run App.initialWorld es))) = true).
Proof.
  destruct (reachable_invariants es) as (_ & _ & Hv). unfold view_inv in Hv.
  set (w := App.run App.initialWorld es) in *.
  assert (Hkey : truthy_str (App.error (App.ui w)) = true ->
                 App.showResults (App.ui w) = true ->
                 truthy (App.estimate (App.ui w)) = true).
  { intros He Hsr. destruct (Hv Hsr) as [Ht|[_ Hn]]; [exact Ht|].
    rewrite Hn in He. discriminate He. }
  split; [|exact Hkey].
  intros msg. unfold App.render.
  destruct (App.showResults (App.ui w)) eqn:Hsr; simpl;
    [|intros H; discriminate H].
  destruct (truthy (App.estimate (App.ui w))) eqn:Ht.
  - destruct (evalSlots _ _); intros H; discriminate H.
  - destruct (truthy_str (App.error (App.ui w))) eqn:He;
      [|intros H; discriminate H].
    discriminate (Hkey eq_refl eq_refl).
Qed.

Lemma blank_step (w : App.World) (e : App.Event) :
  single_flight w -> view_inv w ->
  App.showResults (App.ui w) = true ->
  truthy (App.estimate (App.ui w)) = false ->
  App.step w e = w.
Proof.
  unfold single_flight, view_inv.
  destruct w as [[fd l est err sr] reqs n]. simpl.
  intros Hs Hv -> Ht. destruct (Hv eq_refl) as [H|[-> ->]]; [congruence|].
  subst n. destruct e as [f v| | | |o]; simpl; try reflexivity.
  - unfold App.backOffered. simpl. rewrite Ht. reflexivity.
  - unfold App.retryOffered. simpl. rewrite Ht. reflexivity.
Qed.

(** X8. Once a run of the two-screen component has reached the results
    page with a falsy estimate, the page is blank and no event changes the
    component any more. *)
Theorem blank_results_page_is_final (es es' : list App.Event) :
  App.showResults (App.ui (App.run App.initialWorld es)) = true ->
  truthy (App.estimate (App.ui (App.run App.initialWorld es))) = false ->
  App.render (App.ui (App.run App.initialWorld es)) = Some App.BlankPage
  /\ App.run (App.run App.initialWorld es) es' = App.run App.initialWorld es.
Proof.
  intros Hsr Ht.
  destruct (reachable_invariants es) as (Hs & _ & Hv).
  set (w := App.run App.initialWorld es) in *. split.
  - unfold App.render. rewrite Hsr, Ht. simpl.
    destruct (Hv Hsr) as [H|[_ ->]]; [congruence | reflexivity].
  - induction es' as [|e es' IH]; [reflexivity|].
    simpl. rewrite (blank_step w e Hs Hv Hsr Ht). exact IH.
Qed.

Lemma blank_results_page_is_final_witness :
  App.render (App.ui (App.run App.initialWorld emptyReply))
  = Some App.BlankPage
  /\ App.run (App.run App.initialWorld emptyReply)
       [App.ClickBackToForm; App.ClickRetry; App.SubmitForm]
     = App.run App.initialWorld emptyReply.
Proof.
  apply (blank_results_page_is_final emptyReply); reflexivity.
Defined.

Lemma results_error_branch_dead_witness :
  truthy (App.estimate (App.ui (App.run App.initialWorld failedRetry))) = true.
Proof.
  apply (proj2 (results_error_branch_dead failedRetry)); reflexivity.
Defined.

(** ** What a failed call shows *)

(** X9. In the two-screen component a failed call that settles on the
    estimate page leaves the page as it is, without any message on
    display; on the form page it puts the generic message into the
    banner. *)
Theorem failure_display (o : FetchOutcome) (w : App.World) :
  call_failed o = true ->
  (forall (cs : list Child) (b : bool),
     App.render (App.ui w) = Some (App.EstimatePage cs b) ->
     App.render (App.ui (App.handleSubmit_settle o w))
     = Some (App.EstimatePage cs false))
  /\ (forall (fd : FormData) (bn : option string) (off b : bool),
        App.render (App.ui w) = Some (App.FormPage fd bn off b) ->
        App.render (App.ui (App.handleSubmit_settle o w))
        = Some (App.FormPage fd (Some App.failureMessage)
                  (negb (truthy (App.isFormValid fd))) false)).
Proof.
  intros Hfail. rewrite (call_failed_catch o w Hfail).
  destruct w as [[fd l est err sr] reqs n]. unfold App.render. simpl.
  split.
  - intros cs b. destruct sr; simpl; [|discriminate].
    destruct (truthy est); [|destruct (truthy_str err); discriminate].
    destruct (evalSlots est (App.estimateSlots fd)); [|discriminate].
    intros [= <- _]. reflexivity.
  - intros fd' bn off b. destruct sr; simpl.
    + destruct (truthy est); [|destruct (truthy_str err); discriminate].
      destruct (evalSlots est (App.estimateSlots fd)); discriminate.
    + intros [= <- _ _ _]. unfold App.submitDisabled. simpl.
      rewrite orb_false_r. reflexivity.
Qed.

Lemma failure_display_witness :
  App.render
    (App.ui (App.handleSubmit_settle (Responded 500 None) submittedWorld))
  = Some (App.FormPage formA (Some App.failureMessage)
            (negb (truthy (App.isFormValid formA))) false).
Proof.
  apply (proj2 (failure_display (Responded 500 None) submittedWorld eq_refl)
           formA None true true).
  reflexivity.
Defined.

(** X10. In the split-pane component a failed call puts the generic
    message into the banner and leaves the results pane as it was, so an
    earlier estimate stays on display next to the message. *)
Theorem fixed_failure_display (o : FetchOutcome) (w : App_fixed.World)
  (v : App_fixed.View) :
  call_failed o = true ->
  App_fixed.render (App_fixed.ui w) = Some v ->
  App_fixed.render (App_fixed.ui (App_fixed.handleSubmit_settle o w))
  = Some (App_fixed.mkView (App_fixed.form v)
            (negb (truthy (App_fixed.isFormValid (App_fixed.form v)))) false
            (Some App_fixed.failureMessage) (App_fixed.panel v)).
Proof.
  intros Hfail. rewrite (call_failed_catch_fixed o w Hfail).
  destruct w as [[fd l est err] reqs n]. unfold App_fixed.render. simpl.
  unfold App_fixed.submitDisabled. simpl. rewrite orb_false_r.
  destruct (truthy est).
  - destruct (evalSlots est App_fixed.estimateSlots); [|discriminate].
    intros [= <-]. reflexivity.
  - intros [= <-]. reflexivity.
Qed.

Lemma fixed_failure_display_witness :
  App_fixed.render
    (App_fixed.ui
       (App_fixed.handleSubmit_settle (Responded 500 None)
          (eraseW submittedWorld)))
  = Some (App_fixed.mkView formA
            (negb (truthy (App_fixed.isFormValid formA))) false
            (Some App_fixed.failureMessage) None).
Proof.
  apply (fixed_failure_display (Responded 500 None) (eraseW submittedWorld)
           (App_fixed.mkView formA true true None None));
    reflexivity.
Defined.

(** ** The request log *)

Lemma step_requests (w : App.World) (e : App.Event) :
  App.requests (App.step w e) = App.requests w
  \/ App.requests (App.step w e)
     = (App.requests w ++ [App.requestData (App.formData (App.ui w))])%list.
Proof.
  destruct e as [f v| | | |o]; simpl.
  - destruct (App.inputsOffered _); left; reflexivity.
  - destruct (App.submitOffered _); [right|left]; reflexivity.
  - destruct (App.backOffered _); left; reflexivity.
  - destruct (App.retryOffered _); [right|left]; reflexivity.
  - destruct (App.outstanding w); left; reflexivity.
Qed.

(** X11. The requests issued so far are never dropped or changed: a run
    only appends to the log, at most one request per event, and every
    request appended is the payload of some form. *)
Theorem request_log_append_only (w : App.World) (es : list App.Event) :
  exists added : list JSVal,
    App.requests (App.run w es) = (App.requests w ++ added)%list
    /\ (length added <= length es)%nat
    /\ Forall (fun p => exists fd : FormData, p = App.requestData fd) added.
Proof.
  revert w. induction es as [|e es IH]; intros w; simpl.
  - exists []. rewrite app_nil_r. repeat split; [simpl; lia | constructor].
  - destruct (IH (App.step w e)) as (added & Hreq & Hlen & Hall).
    rewrite Hreq.
    destruct (step_requests w e) as [->| ->].
    + exists added. repeat split; [simpl in *; lia | exact Hall].
    + exists (App.requestData (App.formData (App.ui w)) :: added).
      rewrite <- app_assoc. simpl. repeat split; [simpl in *; lia|].
      constructor; [eexists; reflexivity | exact Hall].
Qed.

(** ** The loading flag *)

(** X12. Along every run of the two-screen component [isLoading] is set
    exactly while one request is in flight and clear exactly while none
    is. *)
Theorem loading_flag_exact (es : list App.Event) :
  (App.isLoading (App.ui (App.run App.initialWorld es)) = true
   <-> App.outstanding (App.run App.initialWorld es) = 1%nat)
  /\ (App.isLoading (App.ui (App.run App.initialWorld es)) = false
      <-> App.outstanding (App.run App.initialWorld es) = 0%nat).
Proof.
  pose proof (reachable_single_flight es) as H. unfold single_flight in H.
  rewrite H.
  destruct (App.isLoading (App.ui (App.run App.initialWorld es)));
    split; split; intros E; try reflexivity; discriminate E.
Qed.

(** ** What an event leaves alone *)

(** X13. In the two-screen component the stored estimate is changed only
    by the back button or by a successful reply, the form data only by a
    change of an input, and the form page is left only through a
    successful reply. *)
Theorem step_frame (w : App.World) (e : App.Event) :
  (App.estimate (App.ui (App.step w e)) <> App.estimate (App.ui w) ->
   e = App.ClickBackToForm
   \/ exists (status : Z) (data : JSVal),
        e = App.FetchSettles (Responded status (Some data))
        /\ ok status = true)
  /\ (App.formData (App.ui (App.step w e)) <> App.formData (App.ui w) ->
      exists (f : Field) (v : field_type f), e = App.Change f v)
  /\ (App.showResults (App.ui w) = false ->
      App.showResults (App.ui (App.step w e)) = true ->
      exists (status : Z) (data : JSVal),
        e = App.FetchSettles (Responded status (Some data))
        /\ ok status = true).
Proof.
  destruct w as [[fd l est err sr] reqs n].
  destruct e as [f v| | | |o]; simpl.
  - destruct (App.inputsOffered _); simpl; repeat split;
      try (intros H; congruence); intros _; eauto.
  - destruct (App.submitOffered _); simpl; repeat split; intros H; congruence.
  - destruct (App.backOffered _); simpl; repeat split;
      try (intros H; congruence); intros _; left; reflexivity.
  - destruct (App.retryOffered _); simpl; repeat split; intros H; congruence.
  - destruct n as [|n]; simpl; [repeat split; intros H; congruence|].
    destruct o as [|status [data|]]; simpl;
      try (repeat split; intros H; congruence).
    + destruct (ok status) eqn:Hok; simpl;
        [|repeat split; intros H; congruence].
      repeat split; try (intros H; congruence); intros; eauto.
    + destruct (ok status); simpl; repeat split; intros H; congruence.
Qed.

Lemma step_frame_witness :
  App.ClickBackToForm = App.ClickBackToForm
  \/ exists (status : Z) (data : JSVal),
       App.ClickBackToForm = App.FetchSettles (Responded status (Some data))
       /\ ok status = true.
Proof.
  apply (proj1 (step_frame resultsWorld App.ClickBackToForm)).
  intros H. discriminate H.
Defined.

Lemma loading_flag_exact_witness :
  App.outstanding (App.run App.initialWorld (fillForm ++ [App.SubmitForm]))
  = 1%nat.
Proof.
  apply (proj1 (proj1 (loading_flag_exact (fillForm ++ [App.SubmitForm])))).
  reflexivity.
Defined.

(** ** The form inputs *)

(** X14. [handleInputChange] stores the value under the named field,
    leaves every other field and every other state cell alone, lets a
    later value for the same field replace an earlier one, and changes
    nothing when the value is the one already stored. *)
Theorem handleInputChange_laws (f : Field) (v : field_type f) (s : App.State) :
  field_value f (App.formData (App.handleInputChange f v s)) = v
  /\ (forall g : Field,
        g <> f ->
        field_value g (App.formData (App.handleInputChange f v s))
        = field_value g (App.formData s))
  /\ (forall v' : field_type f,
        App.handleInputChange f v' (App.handleInputChange f v s)
        = App.handleInputChange f v' s)
  /\ App.handleInputChange f (field_value f (App.formData s)) s = s
  /\ App.isLoading (App.handleInputChange f v s) = App.isLoading s
  /\ App.estimate (App.handleInputChange f v s) = App.estimate s
  /\ App.error (App.handleInputChange f v s) = App.error s
  /\ App.showResults (App.handleInputChange f v s) = App.showResults s.
Proof.
  destruct s as [fd l est err sr]. destruct fd.
  repeat match goal with |- _ /\ _ => split end; try reflexivity.
  - destruct f; reflexivity.
  - intros g Hg. destruct f, g; try reflexivity; contradiction Hg; reflexivity.
  - intros v'. destruct f; reflexivity.
  - destruct f; reflexivity.
Qed.

Lemma handleInputChange_laws_witness :
  field_value F_llmProvider
    (App.formData (App.handleInputChange F_callsPerDay 7 App.initialState))
  = field_value F_llmProvider (App.formData App.initialState).
Proof.
  apply (proj1 (proj2
    (handleInputChange_laws F_callsPerDay 7 App.initialState))).
  discriminate.
Defined.

(** X15. When the text of a number input does not parse, or parses to
    zero or less, what [parseInt(...) || 0] stores is not positive and the
    submit button is disabled, whichever of the three number inputs it
    is. *)
Theorem unusable_number_disables_submit (parsed : option Z) (s : App.State) :
  (parsed = None \/ exists n : Z, parsed = Some n /\ n <= 0) ->
  numberInput parsed <= 0
  /\ App.submitDisabled
       (App.handleInputChange F_callsPerDay (numberInput parsed) s) = true
  /\ App.submitDisabled
       (App.handleInputChange F_avgCallDuration (numberInput parsed) s) = true
  /\ App.submitDisabled
       (App.handleInputChange F_estimatedUsers (numberInput parsed) s) = true.
Proof.
  intros Hp.
  assert (Hz : numberInput parsed <= 0).
  { destruct Hp as [->|(n & -> & Hn)]; simpl; [lia|].
    destruct (Z.eqb_spec n 0); lia. }
  split; [exact Hz|].
  assert (Hlt : Z.ltb 0 (numberInput parsed) = false) by (apply Z.ltb_ge; lia).
  destruct s as [fd l est err sr].
  unfold App.submitDisabled, App.isFormValid, js_and. simpl. rewrite Hlt.
  simpl. repeat split.
  - destruct (Z.ltb 0 (callsPerDay fd)); reflexivity.
  - destruct (Z.ltb 0 (callsPerDay fd)); simpl;
      [destruct (Z.ltb 0 (avgCallDuration fd))|]; reflexivity.
Qed.

Lemma unusable_number_disables_submit_witness :
  numberInput None <= 0
  /\ App.submitDisabled
       (App.handleInputChange F_callsPerDay (numberInput None)
          (App.ui (App.run App.initialWorld fillForm))) = true
  /\ App.submitDisabled
       (App.handleInputChange F_avgCallDuration (numberInput None)
          (App.ui (App.run App.initialWorld fillForm))) = true
  /\ App.submitDisabled
       (App.handleInputChange F_estimatedUsers (numberInput None)
          (App.ui (App.run App.initialWorld fillForm))) = true.
Proof.
  apply (unusable_number_disables_submit None). left. reflexivity.
Defined.

Lemma ltb_0_leb_1 (n : Z) : Z.ltb 0 n = Z.leb 1 n.
Proof.
  destruct (Z.ltb_spec 0 n), (Z.leb_spec 1 n); try reflexivity; lia.
Qed.

Lemma isFormValid_constraints (fd : FormData) :
  truthy (App.isFormValid fd) = constraintsHold fd.
Proof.
  unfold App.isFormValid, constraintsHold, js_and.
  rewrite <- !ltb_0_leb_1.
  destruct (Z.ltb 0 (callsPerDay fd)), (Z.ltb 0 (avgCallDuration fd)),
    (Z.ltb 0 (estimatedUsers fd)); simpl; try reflexivity.
  repeat match goal with
  | |- context [String.eqb ?x ""] =>
      destruct (String.eqb x "") eqn:?; simpl
  end; try reflexivity; congruence.
Qed.

(** X16. The submit button is enabled exactly when nothing is loading
    and the [required] and [min="1"] constraints of the seven controls
    hold. *)
Theorem submit_gate_is_constraints (s : App.State) :
  App.submitDisabled s
  = negb (constraintsHold (App.formData s)) || App.isLoading s.
Proof.
  unfold App.submitDisabled. rewrite isFormValid_constraints. reflexivity.
Qed.

(** ** The split-pane component as a running system *)

Lemma fixed_step_single_flight (w : App_fixed.World) (e : App_fixed.Event) :
  fixed_single_flight w -> fixed_single_flight (App_fixed.step w e).
Proof.
  unfold fixed_single_flight.
  destruct w as [[fd l est err] reqs n]. simpl. intros Hinv.
  destruct e as [f v| |o]; simpl.
  - exact Hinv.
  - unfold App_fixed.submitDisabled; simpl.
    destruct (truthy (App_fixed.isFormValid fd)); simpl; [|exact Hinv].
    destruct l; simpl; [exact Hinv|]. rewrite Hinv. reflexivity.
  - destruct n as [|n]; [exact Hinv|].
    destruct l; [|discriminate Hinv]. injection Hinv as ->.
    unfold App_fixed.handleSubmit_settle; simpl.
    destruct o as [|status [data|]]; simpl; try reflexivity;
      destruct (ok status); reflexivity.
Qed.

Lemma fixed_step_message_inv (w : App_fixed.World) (e : App_fixed.Event) :
  fixed_message_inv w -> fixed_message_inv (App_fixed.step w e).
Proof.
  unfold fixed_message_inv.
  destruct w as [[fd l est err] reqs n]. simpl. intros [Hl Hm].
  destruct e as [f v| |o]; simpl.
  - split; assumption.
  - destruct (App_fixed.submitDisabled _); simpl; [split; assumption|].
    split; [reflexivity | left; reflexivity].
  - destruct n as [|n]; simpl; [split; assumption|].
    destruct o as [|status [data|]]; simpl;
      try destruct (ok status); simpl;
      (split; [discriminate | first [right; reflexivity | exact Hm]]).
Qed.

Lemma fixed_reachable (es : list App_fixed.Event) :
  fixed_single_flight (App_fixed.run App_fixed.initialWorld es)
  /\ fixed_message_inv (App_fixed.run App_fixed.initialWorld es).
Proof.
  unfold App_fixed.run.
  assert (H : fixed_single_flight App_fixed.initialWorld
              /\ fixed_message_inv App_fixed.initialWorld).
  { split; [reflexivity|]. split; [reflexivity | left; reflexivity]. }
  revert H. generalize App_fixed.initialWorld.
  induction es as [|e es IH]; intros w [Hs Hm]; simpl; [auto|].
  apply IH. split;
    [apply fixed_step_single_flight | apply fixed_step_message_inv];
    assumption.
Qed.

(** X17. Along every run of the split-pane component at most one request
    is in flight, [isLoading] is set exactly while one is, and while it is
    set no message is stored and a submission of the form changes
    nothing. *)
Theorem fixed_one_request_at_a_time (es : list App_fixed.Event) :
  (App_fixed.outstanding (App_fixed.run App_fixed.initialWorld es) <= 1)%nat
  /\ (App_fixed.isLoading
        (App_fixed.ui (App_fixed.run App_fixed.initialWorld es)) = true
      <-> App_fixed.outstanding (App_fixed.run App_fixed.initialWorld es)
          = 1%nat)
  /\ (App_fixed.isLoading
        (App_fixed.ui (App_fixed.run App_fixed.initialWorld es)) = true ->
      App_fixed.error
        (App_fixed.ui (App_fixed.run App_fixed.initialWorld es)) = None
      /\ App_fixed.step (App_fixed.run App_fixed.initialWorld es)
           App_fixed.SubmitForm
         = App_fixed.run App_fixed.initialWorld es).
Proof.
  destruct (fixed_reachable es) as [Hs [Hl _]].
  unfold fixed_single_flight in Hs. rewrite Hs.
  destruct (App_fixed.isLoading
              (App_fixed.ui (App_fixed.run App_fixed.initialWorld es))) eqn:E.
  - repeat split; try lia; try (intros; reflexivity).
    + apply Hl. reflexivity.
    + simpl. unfold App_fixed.submitDisabled. rewrite E, orb_true_r.
      reflexivity.
  - repeat split; try lia; intros H; discriminate H.
Qed.

Lemma fixed_one_request_at_a_time_witness :
  App_fixed.error
    (App_fixed.ui (App_fixed.run App_fixed.initialWorld submitFilledFixed))
  = None
  /\ App_fixed.step (App_fixed.run App_fixed.initialWorld submitFilledFixed)
       App_fixed.SubmitForm
     = App_fixed.run App_fixed.initialWorld submitFilledFixed.
Proof.
  apply (proj2 (proj2 (fixed_one_request_at_a_time submitFilledFixed))).
  reflexivity.
Defined.

(** X18. In the split-pane component only a successful reply changes the
    stored estimate: no edit, submission or failed call clears it. *)
Theorem fixed_estimate_kept (w : App_fixed.World) (e : App_fixed.Event) :
  App_fixed.estimate (App_fixed.ui (App_fixed.step w e))
  <> App_fixed.estimate (App_fixed.ui w) ->
  exists (status : Z) (data : JSVal),
    e = App_fixed.FetchSettles (Responded status (Some data))
    /\ ok status = true.
Proof.
  destruct w as [[fd l est err] reqs n].
  destruct e as [f v| |o]; simpl.
  - intros H; congruence.
  - destruct (App_fixed.submitDisabled _); simpl; intros H; congruence.
  - destruct n as [|n]; simpl; [intros H; congruence|].
    destruct o as [|status [data|]]; simpl; try (intros H; congruence).
    + destruct (ok status) eqn:Hok; simpl; [|intros H; congruence].
      intros _. eauto.
    + destruct (ok status); simpl; intros H; congruence.
Qed.

Lemma fixed_estimate_kept_witness :
  exists (status : Z) (data : JSVal),
    App_fixed.FetchSettles (Responded 200 (Some sampleEstimate))
    = App_fixed.FetchSettles (Responded status (Some data))
    /\ ok status = true.
Proof.
  apply (fixed_estimate_kept
           (App_fixed.run App_fixed.initialWorld submitFilledFixed)
           (App_fixed.FetchSettles (Responded 200 (Some sampleEstimate)))).
  intros H. discriminate H.
Defined.

(** ** The two components side by side *)

Lemma erase_settle (o : FetchOutcome) (w : App.World) :
  eraseW (App.handleSubmit_settle o w)
  = App_fixed.handleSubmit_settle o (eraseW w).
Proof.
  unfold App.handleSubmit_settle, App_fixed.handleSubmit_settle, eraseW.
  destruct o as [|status [data|]]; [reflexivity| |];
    destruct (ok status); reflexivity.
Qed.

Lemma step_simulation (w : App.World) (e : App_fixed.Event) :
  App.showResults (App.ui w) = false ->
  eraseW (App.step w (formEvent e)) = App_fixed.step (eraseW w) e.
Proof.
  intros Hsr. destruct e as [f v| |o]; simpl.
  - unfold App.inputsOffered. rewrite Hsr. reflexivity.
  - unfold App.submitOffered. rewrite Hsr. simpl.
    change (App_fixed.submitDisabled (erase (App.ui w)))
      with (App.submitDisabled (App.ui w)).
    destruct (App.submitDisabled (App.ui w)); reflexivity.
  - destruct (App.outstanding w); [reflexivity | apply erase_settle].
Qed.

Lemma step_keeps_form_page (w : App.World) (e : App_fixed.Event) :
  App.showResults (App.ui w) = false ->
  (forall o, e = App_fixed.FetchSettles o -> call_failed o = true) ->
  App.showResults (App.ui (App.step w (formEvent e))) = false.
Proof.
  intros Hsr Hfail. destruct e as [f v| |o]; simpl.
  - destruct (App.inputsOffered _); exact Hsr.
  - destruct (App.submitOffered _); exact Hsr.
  - destruct (App.outstanding w); [exact Hsr|].
    rewrite (call_failed_catch o w (Hfail o eq_refl)). exact Hsr.
Qed.

(** X19. Started on the form page, the two-screen component with
    [showResults] forgotten goes through the same states as the split-pane
    component under the same edits, submissions and replies, up to and
    including the first successful reply. *)
Theorem variants_agree_until_success (es : list App_fixed.Event)
  (w : App.World) :
  App.showResults (App.ui w) = false ->
  Forall (fun e => forall o, e = App_fixed.FetchSettles o ->
                             call_failed o = true) es ->
  eraseW (App.run w (map formEvent es)) = App_fixed.run (eraseW w) es
  /\ (forall e : App_fixed.Event,
        eraseW (App.run w (map formEvent (es ++ [e])))
        = App_fixed.run (eraseW w) (es ++ [e])).
Proof.
  revert w. induction es as [|e es IH]; intros w Hsr Hall.
  - split; [reflexivity|]. intros e. simpl. apply step_simulation, Hsr.
  - apply Forall_cons in Hall as [He Hall]. simpl.
    rewrite <- (step_simulation w e Hsr).
    apply IH; [|exact Hall]. apply step_keeps_form_page; assumption.
Qed.

Lemma variants_agree_until_success_witness :
  eraseW
    (App.run App.initialWorld
       (map formEvent
          (submitFilledFixed
           ++ [App_fixed.FetchSettles (Responded 500 None)])))
  = App_fixed.run (eraseW App.initialWorld)
      (submitFilledFixed ++ [App_fixed.FetchSettles (Responded 500 None)]).
Proof.
  apply (variants_agree_until_success
           (submitFilledFixed
            ++ [App_fixed.FetchSettles (Responded 500 None)])
           App.initialWorld).
  - reflexivity.
  - repeat constructor; intros o H; try discriminate H.
    injection H as <-. reflexivity.
Defined.


Lemma run_simulation (es : list App_fixed.Event) (w : App.World) :
  App.showResults (App.ui w) = false ->
  Forall (fun e => forall o, e = App_fixed.FetchSettles o ->
                             call_failed o = true) es ->
  eraseW (App.run w (map formEvent es)) = App_fixed.run (eraseW w) es
  /\ App.showResults (App.ui (App.run w (map formEvent es))) = false.
Proof.
  revert w. induction es as [|e es IH]; intros w Hsr Hall.
  - split; [reflexivity | exact Hsr].
  - apply Forall_cons in Hall as [He Hall]. simpl.
    rewrite <- (step_simulation w e Hsr).
    apply IH; [|exact Hall]. apply step_keeps_form_page; assumption.
Qed.

Lemma form_page_views (s : App.State) :
  App.showResults s = false ->
  truthy (App.estimate s) = false ->
  App.render s
  = Some (App.FormPage (App.formData s)
            (if truthy_str (App.error s) then App.error s else None)
            (App.submitDisabled s) (App.isLoading s))
  /\ App_fixed.render (erase s)
     = Some (App_fixed.mkView (App.formData s) (App.submitDisabled s)
               (App.isLoading s)
               (if truthy_str (App.error s) then App.error s else None)
               None).
Proof.
  intros Hsr Ht. unfold App.render, App_fixed.render. simpl.
  rewrite Hsr, Ht. split; reflexivity.
Qed.

(** C9 (as amended). The two components share the form logic: they compute
    the same validity verdict and the same request payload from every
    form, store the same message after every failed call, disable the
    submit button in the same states, and the submit handler of the
    two-screen component, with [showResults] forgotten, is the submit
    handler of the split-pane component.  On the form page every edit,
    submission and reply has the same effect in both, so that from the
    form page the two go through the same states up to and including the
    first successful reply, and with no estimate stored both show the same
    form, banner and button.  (The [showResults] cell and the back and
    retry handlers exist in the two-screen component only.) *)
Theorem variants_agree (fd : FormData) :
  App.isFormValid fd = App_fixed.isFormValid fd
  /\ App.requestData fd = App_fixed.requestData fd
  /\ (forall (o : FetchOutcome) (w : App.World) (w' : App_fixed.World),
        call_failed o = true ->
        exists msg : string,
          App.error (App.ui (App.handleSubmit_settle o w)) = Some msg
          /\ App_fixed.error
               (App_fixed.ui (App_fixed.handleSubmit_settle o w'))
             = Some msg)
  /\ (forall w : App.World,
        eraseW (App.handleSubmit_begin w)
        = App_fixed.handleSubmit_begin (eraseW w))
  /\ (forall (o : FetchOutcome) (w : App.World),
        eraseW (App.handleSubmit_settle o w)
        = App_fixed.handleSubmit_settle o (eraseW w))
  /\ (forall (f : Field) (v : field_type f) (s : App.State),
        erase (App.handleInputChange f v s)
        = App_fixed.handleInputChange f v (erase s))
  /\ (forall s : App.State,
        App.submitDisabled s = App_fixed.submitDisabled (erase s))
  /\ (forall (w : App.World) (e : App_fixed.Event),
        App.showResults (App.ui w) = false ->
        eraseW (App.step w (formEvent e)) = App_fixed.step (eraseW w) e)
  /\ (forall (es : list App_fixed.Event) (e : App_fixed.Event)
             (w : App.World),
        App.showResults (App.ui w) = false ->
        Forall (fun e' => forall o, e' = App_fixed.FetchSettles o ->
                                    call_failed o = true) es ->
        eraseW (App.run w (map formEvent (es ++ [e])))
        = App_fixed.run (eraseW w) (es ++ [e]))
  /\ (forall s : App.State,
        App.showResults s = false ->
        truthy (App.estimate s) = false ->
        App.render s
        = Some (App.FormPage (App.formData s)
                  (if truthy_str (App.error s) then App.error s else None)
                  (App.submitDisabled s) (App.isLoading s))
        /\ App_fixed.render (erase s)
           = Some (App_fixed.mkView (App.formData s) (App.submitDisabled s)
                     (App.isLoading s)
                     (if truthy_str (App.error s) then App.error s else None)
                     None)).
Proof.
  repeat match goal with |- _ /\ _ => split end; try reflexivity.
  - intros o w w' Hfail. exists App.failureMessage.
    rewrite (call_failed_catch o w Hfail).
    rewrite (call_failed_catch_fixed o w' Hfail). split; reflexivity.
  - intros o w. apply erase_settle.
  - intros w e Hsr. apply step_simulation, Hsr.
  - intros es e w Hsr Hall.
    destruct (run_simulation es w Hsr Hall) as [Hrun Hsr'].
    unfold App.run, App_fixed.run in *.
    rewrite map_app, !fold_left_app. simpl. rewrite <- Hrun.
    apply step_simulation, Hsr'.
  - intros s Hsr Ht. apply form_page_views; assumption.
Qed.

Lemma variants_agree_witness :
  (exists msg : string,
     App.error
       (App.ui (App.handleSubmit_settle (Responded 500 None) submittedWorld))
     = Some msg
     /\ App_fixed.error
          (App_fixed.ui
             (App_fixed.handleSubmit_settle (Responded 500 None)
                (eraseW submittedWorld)))
        = Some msg)
  /\ eraseW
       (App.run App.initialWorld
          (map formEvent
             (submitFilledFixed
              ++ [App_fixed.FetchSettles (Responded 200 (Some sampleEstimate))])))
     = App_fixed.run (eraseW App.initialWorld)
         (submitFilledFixed
          ++ [App_fixed.FetchSettles (Responded 200 (Some sampleEstimate))])
  /\ App.render App.initialState
     = Some (App.FormPage initialFormData None true false)
  /\ App_fixed.render (erase App.initialState)
     = Some (App_fixed.mkView initialFormData true false None None).
Proof.
  pose proof (variants_agree formA)
    as (_ & _ & Hmsg & _ & _ & _ & _ & _ & Hrun & Hview).
  split; [apply Hmsg; reflexivity|].
  split.
  - apply (Hrun submitFilledFixed
             (App_fixed.FetchSettles (Responded 200 (Some sampleEstimate)))
             App.initialWorld).
    + reflexivity.
    + repeat constructor; intros o H; discriminate H.
  - apply (Hview App.initialState); reflexivity.
Defined.

(** C9 (as stated) fails after the first successful reply: the two-screen
    component has left the form page, so a further submission of the form
    does nothing there, while the split-pane component issues a second
    request. *)
Lemma variants_diverge_after_success :
  App.requests (App.run App.initialWorld (map formEvent resubmitAfterSuccess))
  = [App.requestData formA]
  /\ App_fixed.requests
       (App_fixed.run (eraseW App.initialWorld) resubmitAfterSuccess)
     = [App_fixed.requestData formA; App_fixed.requestData formA]
  /\ eraseW (App.run App.initialWorld (map formEvent resubmitAfterSuccess))
     <> App_fixed.run (eraseW App.initialWorld) resubmitAfterSuccess.
Proof.
  split; [reflexivity|]. split; [reflexivity|].
  intros H. apply (f_equal App_fixed.outstanding) in H.
  vm_compute in H. discriminate H.
Qed.

(** The retry handler is the other difference: it sends the payload of a
    form that fails the validity test, which a submission of the form, the
    only way to a request in the split-pane component, never does. *)
Lemma retry_sends_invalid_form :
  App.requests (App.run App.initialWorld retryAfterReset)
  = [App.requestData formA; App.requestData formNoLlm]
  /\ truthy (App.isFormValid formNoLlm) = false.
Proof. split; reflexivity. Qed.

Lemma fixed_requests_valid_from (es : list App_fixed.Event)
  (w : App_fixed.World) :
  Forall (fun p => exists fd : FormData,
            truthy (App_fixed.isFormValid fd) = true
            /\ p = App_fixed.requestData fd) (App_fixed.requests w) ->
  Forall (fun p => exists fd : FormData,
            truthy (App_fixed.isFormValid fd) = true
            /\ p = App_fixed.requestData fd)
    (App_fixed.requests (App_fixed.run w es)).
Proof.
  revert w. induction es as [|e es IH]; intros w Hw; simpl; [exact Hw|].
  apply IH. destruct e as [f v| |o]; simpl.
  - exact Hw.
  - unfold App_fixed.submitDisabled.
    destruct (truthy (App_fixed.isFormValid (App_fixed.formData
                                                (App_fixed.ui w)))) eqn:Hv;
      simpl; [|exact Hw].
    destruct (App_fixed.isLoading (App_fixed.ui w)); simpl; [exact Hw|].
    apply Forall_app. split; [exact Hw|].
    constructor; [|constructor]. eexists. split; [exact Hv | reflexivity].
  - destruct (App_fixed.outstanding w); exact Hw.
Qed.

Lemma fixed_requests_valid (es : list App_fixed.Event) :
  Forall (fun p => exists fd : FormData,
            truthy (App_fixed.isFormValid fd) = true
            /\ p = App_fixed.requestData fd)
    (App_fixed.requests (App_fixed.run App_fixed.initialWorld es)).
Proof. apply fixed_requests_valid_from. constructor. Qed.
